(** * Sample-test launcher and sub-DAG sample: a shallow embedding

    This development embeds two Python files in Rocq:

    - [test/sample-test/sample_test_launcher.py]: the classes [SampleTest]
      and [ComponentTest] with their methods [__init__], [_compile],
      [_injection] and [run_test];
    - [samples/v2/subdag.py]: the two components and the two pipelines.

    The launcher is glue code: almost every statement calls into a library
    (kubernetes, yaml, yamale, papermill, subprocess, tempfile) or into a
    sibling module (utils, the two checkers).  Each such call is modelled
    as an _oracle_ of a [World] record (what the call answers: a value or
    an exception) plus an _event_ appended to a log (that the call
    happened).  The launcher's own control flow -- conditionals,
    [try]/[except]/[else], [assert], attribute assignments -- is embedded
    statement by statement in a state-and-exception monad. *)

From Stdlib Require Import ZArith Ascii String List Bool Lia.
From stdpp Require Import base option list strings gmap.

Set Warnings "-register-all".
Set Default Proof Using "Type".

Open Scope string_scope.

(** * Regular expressions (Python's [re], the fragment the launcher uses) *)

Module Regex.

(** Text is a list of characters; the launcher's strings are converted at
    the boundary. *)
Abbreviation text := (list ascii).

Definition lit (s : string) : text := list_ascii_of_string s.

(** The abstract syntax of the patterns written in [ComponentTest._injection]:
    literal characters, [\w], a bracketed set, concatenation, alternation,
    a capturing group and the greedy [+]. *)
Inductive regex : Type :=
| Chr (c : ascii)
| WordChar
| CharSet (cs : text)
| Cat (r1 r2 : regex)
| Alt (r1 r2 : regex)
| Group (r : regex)
| Plus (r : regex).

(** A literal prefix followed by [r]. *)
Definition lit_then (s : string) (r : regex) : regex :=
  fold_right (fun c acc => Cat (Chr c) acc) r (lit s).

(** Characters that the pattern syntax escapes with a backslash. *)
Definition special (c : ascii) : bool :=
  existsb (Ascii.eqb c) (lit ".^$*+?{}[]\|()").

(** Concrete syntax of a pattern, to compare an abstract pattern with the
    string literal in the source. *)
Fixpoint show (r : regex) : string :=
  match r with
  | Chr c => if special c then String "\" (String c "") else String c ""
  | WordChar => "\w"
  | CharSet cs => "[" ++ string_of_list_ascii cs ++ "]"
  | Cat r1 r2 => show r1 ++ show r2
  | Alt r1 r2 => show r1 ++ "|" ++ show r2
  | Group r => "(" ++ show r ++ ")"
  | Plus r => show r ++ "+"
  end.

Section Matching.

(** The character class [\w].  Python decides it per code point (for [str]
    patterns it is Unicode-aware); everything below holds for any such
    class. *)
Variable is_word : ascii -> bool.

(** Declarative meaning: the strings a pattern matches in full. *)
Inductive matches : regex -> text -> Prop :=
| MChr c : matches (Chr c) [c]
| MWord a : is_word a = true -> matches WordChar [a]
| MSet cs a : existsb (Ascii.eqb a) cs = true -> matches (CharSet cs) [a]
| MCat r1 r2 m1 m2 :
    matches r1 m1 -> matches r2 m2 -> matches (Cat r1 r2) (m1 ++ m2)
| MAltL r1 r2 m : matches r1 m -> matches (Alt r1 r2) m
| MAltR r1 r2 m : matches r2 m -> matches (Alt r1 r2) m
| MGroup r m : matches r m -> matches (Group r) m
| MPlusOne r m : matches r m -> matches (Plus r) m
| MPlusMore r m1 m2 :
    matches r m1 -> matches (Plus r) m2 -> matches (Plus r) (m1 ++ m2).

(** The backtracking matcher, in continuation-passing style: [bt r s k]
    matches [r] against a prefix of [s] and hands the rest to [k]; when [k]
    refuses, the next choice is tried.  Choices are ordered as in Python:
    the left alternative first, and [+] prefers one more iteration
    (greedy).  An iteration of [+] that consumes nothing ends the loop. *)
Fixpoint bt (r : regex) (s : text) (k : text -> option text)
  {struct r} : option text :=
  match r with
  | Chr c =>
      match s with
      | a :: s' => if Ascii.eqb a c then k s' else None
      | [] => None
      end
  | WordChar =>
      match s with
      | a :: s' => if is_word a then k s' else None
      | [] => None
      end
  | CharSet cs =>
      match s with
      | a :: s' => if existsb (Ascii.eqb a) cs then k s' else None
      | [] => None
      end
  | Cat r1 r2 => bt r1 s (fun s1 => bt r2 s1 k)
  | Alt r1 r2 =>
      match bt r1 s k with
      | Some x => Some x
      | None => bt r2 s k
      end
  | Group r => bt r s k
  | Plus r =>
      (fix loop (n : nat) (s : text) {struct n} : option text :=
         bt r s (fun s' =>
           match n with
           | S n' =>
               if (length s' <? length s)%nat then
                 match loop n' s' with
                 | Some x => Some x
                 | None => k s'
                 end
               else k s'
           | O => k s'
           end)) (length s) s
  end.

(** The loop of [+] by itself: [bt (Plus r) s k] is
    [plus_loop r k (length s) s]. *)
Definition plus_loop (r : regex) (k : text -> option text)
  : nat -> text -> option text :=
  fix loop (n : nat) (s : text) {struct n} : option text :=
    bt r s (fun s' =>
      match n with
      | S n' =>
          if (length s' <? length s)%nat then
            match loop n' s' with
            | Some x => Some x
            | None => k s'
            end
          else k s'
      | O => k s'
      end).

(** One match attempt at the start of [s]: the matched prefix and the rest.
    With [must_advance] an empty match is refused (the matcher backtracks
    into a non-empty one if there is one), as [re] does right after an
    empty match. *)
Definition match_here (must_advance : bool) (r : regex) (s : text)
  : option (text * text) :=
  match bt r s (fun rest =>
                  if must_advance && (length rest =? length s)%nat
                  then None else Some rest) with
  | Some rest => Some (take (length s - length rest) s, rest)
  | None => None
  end.

(** What a left-to-right scan does with each part of the text. *)
Inductive piece : Type :=
| Keep (c : ascii)        (* a character outside every match *)
| Replaced (m : text).    (* a matched segment *)

(** [re.sub]'s scan: at each position try a match; a non-empty match is
    replaced and the scan resumes after it; an empty match is replaced and
    the same position is tried again for a non-empty match; otherwise the
    character is kept. *)
Fixpoint scan (fuel : nat) (r : regex) (s : text) : list piece :=
  match fuel with
  | O => []
  | S fuel' =>
      let keep_one :=
        match s with
        | c :: s' => Keep c :: scan fuel' r s'
        | [] => []
        end in
      match match_here false r s with
      | Some ([], _) =>
          Replaced [] ::
          match match_here true r s with
          | Some (m, rest) => Replaced m :: scan fuel' r rest
          | None => keep_one
          end
      | Some (m, rest) => Replaced m :: scan fuel' r rest
      | None => keep_one
      end
  end.

(** The text a list of pieces was cut from, and the text it becomes. *)
Definition original (ps : list piece) : text :=
  concat (map (fun p => match p with Keep c => [c] | Replaced m => m end) ps).

Definition rendered (repl : text) (ps : list piece) : text :=
  concat (map (fun p => match p with Keep c => [c] | Replaced _ => repl end) ps).

(** [re.sub(pattern, repl, string)] for a replacement without backslash
    escapes (an image name). *)
Definition re_sub (r : regex) (repl : text) (s : text) : text :=
  rendered repl (scan (S (length s)) r s).

End Matching.

(** [\w] on ASCII text. *)
Definition ascii_word (a : ascii) : bool :=
  let n := nat_of_ascii a in
  ((48 <=? n) && (n <=? 57) || (65 <=? n) && (n <=? 90)
   || (97 <=? n) && (n <=? 122) || (n =? 95))%nat.

End Regex.

(** * Python's [os.path] on POSIX paths *)

Module os_path.

(** [s[i:]] and [s[:i]] for [0 <= i]. *)
Fixpoint drop_str (n : nat) (s : string) : string :=
  match n, s with
  | S n', String _ s' => drop_str n' s'
  | _, _ => s
  end.

Fixpoint take_str (n : nat) (s : string) : string :=
  match n, s with
  | S n', String c s' => String c (take_str n' s')
  | _, _ => ""
  end.

(** [s.rfind(c)]: the index of the last occurrence of [c], or [-1]. *)
Fixpoint rfind_from (c : ascii) (s : string) (i : Z) (found : Z) : Z :=
  match s with
  | "" => found
  | String a s' => rfind_from c s' (i + 1) (if Ascii.eqb a c then i else found)
  end.

Definition rfind (c : ascii) (s : string) : Z := rfind_from c s 0 (-1).

(** [s.rstrip('/')]. *)
Fixpoint rstrip_slash (s : string) : string :=
  match s with
  | "" => ""
  | String c s' =>
      match rstrip_slash s' with
      | "" => if Ascii.eqb c "/" then "" else String c ""
      | t => String c t
      end
  end.

Fixpoint all_slashes (s : string) : bool :=
  match s with
  | "" => true
  | String c s' => Ascii.eqb c "/" && all_slashes s'
  end.

(** [posixpath.split]: [(head, tail)] where [tail] is everything after the
    final slash. *)
Definition split (p : string) : string * string :=
  let i := Z.to_nat (rfind "/" p + 1) in
  let head := take_str i p in
  let tail := drop_str i p in
  let head :=
    if negb (String.eqb head "") && negb (all_slashes head)
    then rstrip_slash head else head in
  (head, tail).

(** The loop of [genericpath._splitext] that skips the leading dots of the
    file name: [Some] is the [return] inside the loop, [None] is falling
    out of it. *)
Fixpoint skip_leading_dots (fuel : nat) (p : string)
    (filenameIndex dotIndex : Z) : option (string * string) :=
  match fuel with
  | O => None
  | S fuel' =>
      if (filenameIndex <? dotIndex)%Z then
        if negb (String.eqb
                   (take_str 1 (drop_str (Z.to_nat filenameIndex) p)) ".")
        then Some (take_str (Z.to_nat dotIndex) p,
                   drop_str (Z.to_nat dotIndex) p)
        else skip_leading_dots fuel' p (filenameIndex + 1) dotIndex
      else None
  end.

(** [posixpath.splitext]: [(root, ext)]; [ext] is empty or begins with a
    period and contains at most one period; leading periods of the last
    component are not an extension. *)
Definition splitext (p : string) : string * string :=
  let sepIndex := rfind "/" p in
  let dotIndex := rfind "." p in
  let no_ext := (p, "") in
  if (sepIndex <? dotIndex)%Z then
    match skip_leading_dots (Z.to_nat (dotIndex - (sepIndex + 1))) p
            (sepIndex + 1) dotIndex with
    | Some r => r
    | None => no_ext
    end
  else no_ext.

(** [posixpath.join] of two components. *)
Definition join (a b : string) : string :=
  if String.prefix "/" b then b
  else match last (Regex.lit a) with
       | None => a ++ b
       | Some c => if Ascii.eqb c "/" then a ++ b else a ++ "/" ++ b
       end.

End os_path.

(** * Python values and exceptions *)

(** The values a YAML document loads to.  Mappings are keyed by strings, as
    the test configurations are. *)
Inductive pyval : Type :=
| PNone
| PBool (b : bool)
| PInt (z : Z)
| PStr (s : string)
| PList (l : list pyval)
| PDict (d : gmap string pyval).

(** The exception classes the launcher raises, catches or lets through. *)
Inductive pyclass : Type :=
| BaseException
| KeyboardInterrupt
| SystemExit
| Exception
| AssertionError
| AttributeError
| LookupError
| KeyError
| OSError
| FileNotFoundError
| FileExistsError
| PermissionError
| RuntimeError
| TypeError
| ValueError
| YAMLError
| YamaleError
| ConfigException.

#[global] Instance pyclass_eq_dec : EqDecision pyclass.
Proof. solve_decision. Defined.

(** The direct base class. *)
Definition base_class (c : pyclass) : option pyclass :=
  match c with
  | BaseException => None
  | KeyboardInterrupt | SystemExit | Exception => Some BaseException
  | KeyError => Some LookupError
  | FileNotFoundError | FileExistsError | PermissionError => Some OSError
  | YamaleError => Some ValueError
  | AssertionError | AttributeError | LookupError | OSError | RuntimeError
  | TypeError | ValueError | YAMLError | ConfigException => Some Exception
  end.

(** [issubclass c d], walking up the (single-inheritance) hierarchy, whose
    depth is at most three. *)
Fixpoint issubclass_upto (n : nat) (c d : pyclass) : bool :=
  bool_decide (c = d) ||
  match n, base_class c with
  | S n', Some b => issubclass_upto n' b d
  | _, _ => false
  end.

Definition issubclass : pyclass -> pyclass -> bool := issubclass_upto 3.

(** An exception object: its class, its message ([str(e)]) and the cause
    attached by [raise ... from]. *)
Inductive exn : Type :=
| Exn (cls : pyclass) (msg : string) (cause : option exn).

Definition class_of (e : exn) : pyclass := let 'Exn c _ _ := e in c.
Definition str_of (e : exn) : string := let 'Exn _ m _ := e in m.
Definition cause_of (e : exn) : option exn := let 'Exn _ _ c := e in c.

Definition isinstance (e : exn) (c : pyclass) : bool := issubclass (class_of e) c.

(** ['%s' % x] for an attribute that holds a string or [None]. *)
Definition fmt_s (x : option string) : string :=
  match x with
  | Some s => s
  | None => "None"
  end.

(** [d[k]]. *)
Definition getitem (v : pyval) (k : string) : exn + pyval :=
  match v with
  | PDict d =>
      match d !! k with
      | Some x => inr x
      | None => inl (Exn KeyError k None)
      end
  | PNone | PBool _ | PInt _ =>
      inl (Exn TypeError "object is not subscriptable" None)
  | PStr _ | PList _ =>
      inl (Exn TypeError "indices must be integers or slices, not str" None)
  end.

(** [k in d.keys()]. *)
Definition in_keys (k : string) (v : pyval) : exn + bool :=
  match v with
  | PDict d => inr (bool_decide (is_Some (d !! k)))
  | _ => inl (Exn AttributeError "object has no attribute 'keys'" None)
  end.

(** Whether [dict.update] accepts [v] as one key/value pair. *)
Definition pair_like (v : pyval) : option exn :=
  match v with
  | PList [PList _; _] | PList [PDict _; _] =>
      Some (Exn TypeError "unhashable type" None)
  | PList [_; _] => None
  | PStr s =>
      if (String.length s =? 2)%nat then None
      else Some (Exn ValueError
                   "dictionary update sequence element has the wrong length" None)
  | PDict d =>
      if (size d =? 2)%nat then None
      else Some (Exn ValueError
                   "dictionary update sequence element has the wrong length" None)
  | PList _ =>
      Some (Exn ValueError
              "dictionary update sequence element has the wrong length" None)
  | PNone | PBool _ | PInt _ =>
      Some (Exn TypeError
              "cannot convert dictionary update sequence element to a sequence"
              None)
  end.

(** [d.update(v)].  A mapping is merged, its entries winning.  A sequence of
    pairs is accepted too; the dictionary it yields is left out, because the
    launcher's next statement calls [keys()] on the same [v] and raises. *)
Definition dict_update (d : gmap string pyval) (v : pyval)
  : exn + gmap string pyval :=
  match v with
  | PDict d' => inr (d' ∪ d)
  | PList l =>
      match list_find (fun x => is_Some (pair_like x)) l with
      | Some (_, x) => match pair_like x with Some e => inl e | None => inr d end
      | None => inr d
      end
  | PStr s =>
      if (String.length s =? 0)%nat then inr d
      else inl (Exn ValueError
                  "dictionary update sequence element has the wrong length" None)
  | PNone | PBool _ | PInt _ =>
      inl (Exn TypeError "object is not iterable" None)
  end.

(** * The launcher's objects *)

(** The two classes of the launcher; [ComponentTest] inherits from
    [SampleTest]. *)
Inductive klass : Type := SampleTestK | ComponentTestK.

(** The attributes of an instance.  [None] in [_test_name], [_compiled_path],
    [_function] and [_is_notebook] is Python's [None]; [_run_pipeline] is
    [None] until [_compile] assigns the attribute. *)
Record self_t : Type := {
  cls : klass;
  _test_name : option string;
  _test_path : string;
  _compiled_path : option string;
  _results_gcs_dir : string;
  _function : option string;
  _target_image_prefix : string;
  _namespace : string;
  _host : string;
  _is_notebook : option bool;
  _sample_test_result : string;
  _sample_test_output : string;
  _run_pipeline : option pyval;
  _local_confusionmatrix_image : string;
  _local_roc_image : string;
  _dataproc_gcp_image : string
}.

(** Attribute assignment, one function per attribute. *)
Definition with_test_name (v : option string) (s : self_t) : self_t :=
  {| cls := cls s; _test_name := v; _test_path := _test_path s;
     _compiled_path := _compiled_path s;
     _results_gcs_dir := _results_gcs_dir s; _function := _function s;
     _target_image_prefix := _target_image_prefix s;
     _namespace := _namespace s; _host := _host s;
     _is_notebook := _is_notebook s;
     _sample_test_result := _sample_test_result s;
     _sample_test_output := _sample_test_output s;
     _run_pipeline := _run_pipeline s;
     _local_confusionmatrix_image := _local_confusionmatrix_image s;
     _local_roc_image := _local_roc_image s;
     _dataproc_gcp_image := _dataproc_gcp_image s |}.

Definition with_test_path (v : string) (s : self_t) : self_t :=
  {| cls := cls s; _test_name := _test_name s; _test_path := v;
     _compiled_path := _compiled_path s;
     _results_gcs_dir := _results_gcs_dir s; _function := _function s;
     _target_image_prefix := _target_image_prefix s;
     _namespace := _namespace s; _host := _host s;
     _is_notebook := _is_notebook s;
     _sample_test_result := _sample_test_result s;
     _sample_test_output := _sample_test_output s;
     _run_pipeline := _run_pipeline s;
     _local_confusionmatrix_image := _local_confusionmatrix_image s;
     _local_roc_image := _local_roc_image s;
     _dataproc_gcp_image := _dataproc_gcp_image s |}.

Definition with_compiled_path (v : option string) (s : self_t) : self_t :=
  {| cls := cls s; _test_name := _test_name s; _test_path := _test_path s;
     _compiled_path := v; _results_gcs_dir := _results_gcs_dir s;
     _function := _function s; _target_image_prefix := _target_image_prefix s;
     _namespace := _namespace s; _host := _host s;
     _is_notebook := _is_notebook s;
     _sample_test_result := _sample_test_result s;
     _sample_test_output := _sample_test_output s;
     _run_pipeline := _run_pipeline s;
     _local_confusionmatrix_image := _local_confusionmatrix_image s;
     _local_roc_image := _local_roc_image s;
     _dataproc_gcp_image := _dataproc_gcp_image s |}.

Definition with_results_gcs_dir (v : string) (s : self_t) : self_t :=
  {| cls := cls s; _test_name := _test_name s; _test_path := _test_path s;
     _compiled_path := _compiled_path s; _results_gcs_dir := v;
     _function := _function s; _target_image_prefix := _target_image_prefix s;
     _namespace := _namespace s; _host := _host s;
     _is_notebook := _is_notebook s;
     _sample_test_result := _sample_test_result s;
     _sample_test_output := _sample_test_output s;
     _run_pipeline := _run_pipeline s;
     _local_confusionmatrix_image := _local_confusionmatrix_image s;
     _local_roc_image := _local_roc_image s;
     _dataproc_gcp_image := _dataproc_gcp_image s |}.

Definition with_function (v : option string) (s : self_t) : self_t :=
  {| cls := cls s; _test_name := _test_name s; _test_path := _test_path s;
     _compiled_path := _compiled_path s;
     _results_gcs_dir := _results_gcs_dir s; _function := v;
     _target_image_prefix := _target_image_prefix s;
     _namespace := _namespace s; _host := _host s;
     _is_notebook := _is_notebook s;
     _sample_test_result := _sample_test_result s;
     _sample_test_output := _sample_test_output s;
     _run_pipeline := _run_pipeline s;
     _local_confusionmatrix_image := _local_confusionmatrix_image s;
     _local_roc_image := _local_roc_image s;
     _dataproc_gcp_image := _dataproc_gcp_image s |}.

Definition with_target_image_prefix (v : string) (s : self_t) : self_t :=
  {| cls := cls s; _test_name := _test_name s; _test_path := _test_path s;
     _compiled_path := _compiled_path s;
     _results_gcs_dir := _results_gcs_dir s; _function := _function s;
     _target_image_prefix := v; _namespace := _namespace s; _host := _host s;
     _is_notebook := _is_notebook s;
     _sample_test_result := _sample_test_result s;
     _sample_test_output := _sample_test_output s;
     _run_pipeline := _run_pipeline s;
     _local_confusionmatrix_image := _local_confusionmatrix_image s;
     _local_roc_image := _local_roc_image s;
     _dataproc_gcp_image := _dataproc_gcp_image s |}.

Definition with_namespace (v : string) (s : self_t) : self_t :=
  {| cls := cls s; _test_name := _test_name s; _test_path := _test_path s;
     _compiled_path := _compiled_path s;
     _results_gcs_dir := _results_gcs_dir s; _function := _function s;
     _target_image_prefix := _target_image_prefix s; _namespace := v;
     _host := _host s; _is_notebook := _is_notebook s;
     _sample_test_result := _sample_test_result s;
     _sample_test_output := _sample_test_output s;
     _run_pipeline := _run_pipeline s;
     _local_confusionmatrix_image := _local_confusionmatrix_image s;
     _local_roc_image := _local_roc_image s;
     _dataproc_gcp_image := _dataproc_gcp_image s |}.

Definition with_host (v : string) (s : self_t) : self_t :=
  {| cls := cls s; _test_name := _test_name s; _test_path := _test_path s;
     _compiled_path := _compiled_path s;
     _results_gcs_dir := _results_gcs_dir s; _function := _function s;
     _target_image_prefix := _target_image_prefix s;
     _namespace := _namespace s; _host := v; _is_notebook := _is_notebook s;
     _sample_test_result := _sample_test_result s;
     _sample_test_output := _sample_test_output s;
     _run_pipeline := _run_pipeline s;
     _local_confusionmatrix_image := _local_confusionmatrix_image s;
     _local_roc_image := _local_roc_image s;
     _dataproc_gcp_image := _dataproc_gcp_image s |}.

Definition with_is_notebook (v : option bool) (s : self_t) : self_t :=
  {| cls := cls s; _test_name := _test_name s; _test_path := _test_path s;
     _compiled_path := _compiled_path s;
     _results_gcs_dir := _results_gcs_dir s; _function := _function s;
     _target_image_prefix := _target_image_prefix s;
     _namespace := _namespace s; _host := _host s; _is_notebook := v;
     _sample_test_result := _sample_test_result s;
     _sample_test_output := _sample_test_output s;
     _run_pipeline := _run_pipeline s;
     _local_confusionmatrix_image := _local_confusionmatrix_image s;
     _local_roc_image := _local_roc_image s;
     _dataproc_gcp_image := _dataproc_gcp_image s |}.

Definition with_sample_test_result (v : string) (s : self_t) : self_t :=
  {| cls := cls s; _test_name := _test_name s; _test_path := _test_path s;
     _compiled_path := _compiled_path s;
     _results_gcs_dir := _results_gcs_dir s; _function := _function s;
     _target_image_prefix := _target_image_prefix s;
     _namespace := _namespace s; _host := _host s;
     _is_notebook := _is_notebook s; _sample_test_result := v;
     _sample_test_output := _sample_test_output s;
     _run_pipeline := _run_pipeline s;
     _local_confusionmatrix_image := _local_confusionmatrix_image s;
     _local_roc_image := _local_roc_image s;
     _dataproc_gcp_image := _dataproc_gcp_image s |}.

Definition with_sample_test_output (v : string) (s : self_t) : self_t :=
  {| cls := cls s; _test_name := _test_name s; _test_path := _test_path s;
     _compiled_path := _compiled_path s;
     _results_gcs_dir := _results_gcs_dir s; _function := _function s;
     _target_image_prefix := _target_image_prefix s;
     _namespace := _namespace s; _host := _host s;
     _is_notebook := _is_notebook s;
     _sample_test_result := _sample_test_result s; _sample_test_output := v;
     _run_pipeline := _run_pipeline s;
     _local_confusionmatrix_image := _local_confusionmatrix_image s;
     _local_roc_image := _local_roc_image s;
     _dataproc_gcp_image := _dataproc_gcp_image s |}.

Definition with_run_pipeline (v : option pyval) (s : self_t) : self_t :=
  {| cls := cls s; _test_name := _test_name s; _test_path := _test_path s;
     _compiled_path := _compiled_path s;
     _results_gcs_dir := _results_gcs_dir s; _function := _function s;
     _target_image_prefix := _target_image_prefix s;
     _namespace := _namespace s; _host := _host s;
     _is_notebook := _is_notebook s;
     _sample_test_result := _sample_test_result s;
     _sample_test_output := _sample_test_output s; _run_pipeline := v;
     _local_confusionmatrix_image := _local_confusionmatrix_image s;
     _local_roc_image := _local_roc_image s;
     _dataproc_gcp_image := _dataproc_gcp_image s |}.

Definition with_local_confusionmatrix_image (v : string)
    (s : self_t) : self_t :=
  {| cls := cls s; _test_name := _test_name s; _test_path := _test_path s;
     _compiled_path := _compiled_path s;
     _results_gcs_dir := _results_gcs_dir s; _function := _function s;
     _target_image_prefix := _target_image_prefix s;
     _namespace := _namespace s; _host := _host s;
     _is_notebook := _is_notebook s;
     _sample_test_result := _sample_test_result s;
     _sample_test_output := _sample_test_output s;
     _run_pipeline := _run_pipeline s; _local_confusionmatrix_image := v;
     _local_roc_image := _local_roc_image s;
     _dataproc_gcp_image := _dataproc_gcp_image s |}.

Definition with_local_roc_image (v : string) (s : self_t) : self_t :=
  {| cls := cls s; _test_name := _test_name s; _test_path := _test_path s;
     _compiled_path := _compiled_path s;
     _results_gcs_dir := _results_gcs_dir s; _function := _function s;
     _target_image_prefix := _target_image_prefix s;
     _namespace := _namespace s; _host := _host s;
     _is_notebook := _is_notebook s;
     _sample_test_result := _sample_test_result s;
     _sample_test_output := _sample_test_output s;
     _run_pipeline := _run_pipeline s;
     _local_confusionmatrix_image := _local_confusionmatrix_image s;
     _local_roc_image := v; _dataproc_gcp_image := _dataproc_gcp_image s |}.

Definition with_dataproc_gcp_image (v : string) (s : self_t) : self_t :=
  {| cls := cls s; _test_name := _test_name s; _test_path := _test_path s;
     _compiled_path := _compiled_path s;
     _results_gcs_dir := _results_gcs_dir s; _function := _function s;
     _target_image_prefix := _target_image_prefix s;
     _namespace := _namespace s; _host := _host s;
     _is_notebook := _is_notebook s;
     _sample_test_result := _sample_test_result s;
     _sample_test_output := _sample_test_output s;
     _run_pipeline := _run_pipeline s;
     _local_confusionmatrix_image := _local_confusionmatrix_image s;
     _local_roc_image := _local_roc_image s; _dataproc_gcp_image := v |}.

(** An object before [__init__] has run. *)
Definition blank (k : klass) : self_t :=
  {| cls := k; _test_name := None; _test_path := ""; _compiled_path := None;
     _results_gcs_dir := ""; _function := None; _target_image_prefix := "";
     _namespace := ""; _host := ""; _is_notebook := None;
     _sample_test_result := ""; _sample_test_output := "";
     _run_pipeline := None; _local_confusionmatrix_image := "";
     _local_roc_image := ""; _dataproc_gcp_image := "" |}.

(** * The world outside the launcher *)

(** A call that left the launcher.  The log of a run is the list of its
    events in program order. *)
Inductive event : Type :=
| EPrint (line : string)
| ELoadInclusterConfig
| ELoadKubeConfig
| EOpen (path : string)
| EYamlSafeLoad (path : string)
| EMakeSchema (path : string)
| EMakeData (path : string)
| EValidate (schema data : string)
| EExecuteNotebook (input_path output_path : string)
    (parameters : gmap string pyval) (prepare_only : bool)
| ESubprocessCall (args : list string)
| ENamedTemporaryFile (suffix : string)
| EFileInjection (file_in file_out : string)
    (subs : list (Regex.regex * string))
| EChdir (dir : string)
| ENoteBookChecker (testname : option string) (result : string)
    (run_pipeline : pyval) (experiment_name host : string)
| ENoteBookCheckerRun
| ENoteBookCheckerCheck
| EPySampleChecker (testname input : option string)
    (output result host namespace experiment_name : string)
| EPySampleCheckerRun
| EPySampleCheckerCheck.

(** What the outside answers.  [option exn] is a call made for its effect
    ([None]: it returned); [exn + A] is a call made for its value.  The four
    constants come from the sibling module [constants]. *)
Record World : Type := {
  CONFIG_DIR : string;
  DEFAULT_CONFIG : string;
  SCHEMA_CONFIG : string;
  SAMPLE_TEST_DIR : string;
  kubernetes_load_incluster_config : option exn;
  kubernetes_load_kube_config : option exn;
  os_path_isfile : string -> bool;
  builtin_open : string -> option exn;
  yaml_safe_load : string -> exn + pyval;
  yamale_make_schema : string -> option exn;
  yamale_make_data : string -> option exn;
  yamale_validate : string -> string -> option exn;
  pm_execute_notebook : string -> gmap string pyval -> option exn;
  subprocess_call : list string -> exn + Z;
  tempfile_NamedTemporaryFile : string -> exn + string;
  utils_file_injection :
    string -> string -> list (Regex.regex * string) -> option exn;
  os_chdir : string -> option exn;
  NoteBookChecker_run : option exn;
  NoteBookChecker_check : option exn;
  PySampleChecker_run : option exn;
  PySampleChecker_check : option exn
}.

(** * The state-and-exception monad *)

(** What a run can change inside the process: the object and [os.environ]. *)
Record mem : Type := { self : self_t; environ : gmap string string }.

Inductive res (A : Type) : Type :=
| Ok (a : A)
| Raise (e : exn).
Arguments Ok {A} a.
Arguments Raise {A} e.

(** The outcome of running a piece of the program: how it ended, the memory
    it left (assignments made before an exception stay made) and the calls
    it made. *)
Record out (A : Type) : Type := {
  result : res A;
  final : mem;
  events : list event
}.
Arguments result {A} o.
Arguments final {A} o.
Arguments events {A} o.
Arguments Build_out {A} result final events.

Definition M (A : Type) : Type := mem -> out A.

Definition returns {A} (a : A) : M A :=
  fun m => {| result := Ok a; final := m; events := [] |}.

Definition raise {A} (e : exn) : M A :=
  fun m => {| result := Raise e; final := m; events := [] |}.

(** Run [k] after [o], keeping the events of both. *)
Definition continue {A B} (o : out A) (k : mem -> out B) : out B :=
  let o' := k (final o) in
  {| result := result o'; final := final o';
     events := events o ++ events o' |}.

Definition bind {A B} (c : M A) (k : A -> M B) : M B :=
  fun m =>
    let o := c m in
    match result o with
    | Ok a => continue o (k a)
    | Raise e => {| result := Raise e; final := final o; events := events o |}
    end.

#[global] Instance M_ret : MRet M := @returns.
#[global] Instance M_bind : MBind M := fun A B k c => bind c k.

(** [try: body / except ...: handlers / else: orelse].  [handlers e] is the
    first [except] clause that accepts [e], if any; an exception of the
    [else] block is not offered to the handlers. *)
Definition try_ {A B} (body : M A) (handlers : exn -> option (M B))
    (orelse : A -> M B) : M B :=
  fun m =>
    let o := body m in
    match result o with
    | Ok a => continue o (orelse a)
    | Raise e =>
        match handlers e with
        | Some h => continue o h
        | None =>
            {| result := Raise e; final := final o; events := events o |}
        end
    end.

Definition get_self : M self_t :=
  fun m => {| result := Ok (self m); final := m; events := [] |}.

Definition assign (f : self_t -> self_t) : M unit :=
  fun m =>
    {| result := Ok tt;
       final := {| self := f (self m); environ := environ m |};
       events := [] |}.

(** [os.environ[k] = v]. *)
Definition setenv (k v : string) : M unit :=
  fun m =>
    {| result := Ok tt;
       final := {| self := self m; environ := <[k := v]> (environ m) |};
       events := [] |}.

(** A call made for its effect, and a call made for its value. *)
Definition call (e : event) (answer : option exn) : M unit :=
  fun m =>
    {| result := match answer with Some x => Raise x | None => Ok tt end;
       final := m; events := [e] |}.

Definition call_value {A} (e : event) (answer : exn + A) : M A :=
  fun m =>
    {| result := match answer with inl x => Raise x | inr a => Ok a end;
       final := m; events := [e] |}.

(** A pure operation that may raise. *)
Definition lift {A} (r : exn + A) : M A :=
  match r with
  | inl e => raise e
  | inr a => returns a
  end.

Definition print (line : string) : M unit := call (EPrint line) None.

(** [assert cond, msg]. *)
Definition py_assert (cond : bool) (msg : string) : M unit :=
  if cond then returns tt else raise (Exn AssertionError msg None).

(** Python truthiness of an attribute that holds [None], [False] or [True]. *)
Definition truthy (b : option bool) : bool :=
  match b with
  | Some true => true
  | _ => false
  end.

(** Reading an attribute that may not have been assigned yet. *)
Definition getattr {A} (name : string) (x : option A) : M A :=
  match x with
  | Some v => returns v
  | None =>
      raise (Exn AttributeError
               ("object has no attribute '" ++ name ++ "'") None)
  end.

(** Keyword arguments against a signature: [TypeError] for a keyword that
    names no parameter, or for a required parameter that is not given. *)
Definition bind_keywords (params required keywords : list string)
  : option exn :=
  match List.find (fun k => negb (bool_decide (k ∈ params))) keywords with
  | Some k =>
      Some (Exn TypeError
              ("__init__() got an unexpected keyword argument '" ++ k ++ "'")
              None)
  | None =>
      match List.find (fun p => negb (bool_decide (p ∈ keywords))) required with
      | Some p =>
          Some (Exn TypeError
                  ("__init__() missing 1 required positional argument: '"
                   ++ p ++ "'") None)
      | None => None
      end
  end.

(** * class SampleTest *)

Module SampleTest.

(** The signature of [__init__], after [self]. *)
Definition parameters : list string :=
  ["test_path"; "results_gcs_dir"; "function"; "host";
   "target_image_prefix"; "namespace"].

Definition required : list string := ["test_path"; "results_gcs_dir"].

(** The two results of
    [os.path.splitext(os.path.split(self._test_path)[-1])]. *)
Definition test_name_of (test_path : string) : string :=
  fst (os_path.splitext (snd (os_path.split test_path))).

Definition ext_name_of (test_path : string) : string :=
  snd (os_path.splitext (snd (os_path.split test_path))).

(** The argument lists of the two subprocesses. *)
Definition nbconvert_args (test_path : string) : list string :=
  ["jupyter"; "nbconvert"; "--to"; "python"; test_path].

Definition compile_args (test_path compiled_path : string)
    (function : option string) : list string :=
  let compile_args :=
    ["kfp"; "dsl"; "compile"; "--py"; test_path; "--output"; compiled_path] in
  match function with
  | Some f => compile_args ++ ["--function"; f]
  | None => compile_args
  end.

Section Methods.

Variable w : World.

(** [__init__] (lines 40-86).  The defaults of the signature are
    [function=None], [host=''], [target_image_prefix=''] and
    [namespace='kubeflow']. *)
Definition __init__ (test_path results_gcs_dir : string)
    (function : option string) (host target_image_prefix namespace : string)
  : M unit :=
  assign (with_test_name None);;
  assign (with_test_path test_path);;
  assign (with_compiled_path None);;
  assign (with_results_gcs_dir results_gcs_dir);;
  assign (with_function function);;
  assign (with_target_image_prefix target_image_prefix);;
  assign (with_namespace namespace);;
  assign (with_host host);;
  s ← get_self;
  (if String.eqb (_host s) "" then
     try_
       (try_
          (call ELoadInclusterConfig (kubernetes_load_incluster_config w))
          (fun _ =>
             Some (call ELoadKubeConfig (kubernetes_load_kube_config w)))
          returns;;
        assign (with_host "http://localhost:8888"))
       (fun err =>
          if isinstance err Exception then
            Some (raise (Exn RuntimeError
                           "Failed to get inverse proxy hostname" (Some err)))
          else None)
       returns
   else returns tt);;
  s ← get_self;
  print ("KFP API healthz endpoint is: " ++ _host s ++ "/apis/v1beta1/healthz");;
  assign (with_is_notebook None);;
  s ← get_self;
  assign (with_sample_test_result
            ("junit_Sample" ++ fmt_s (_test_name s) ++ "Output.xml"));;
  s ← get_self;
  assign (with_sample_test_output (_results_gcs_dir s)).

(** [_compile], line 89: the path must be a file. *)
Definition check_test_path : M unit :=
  s ← get_self;
  py_assert (os_path_isfile w (_test_path s))
    ("Specified test path is not a valid file: " ++ _test_path s).

(** [_compile], lines 92-101: the name and the extension of the file; the
    extension decides the kind of test. *)
Definition determine_kind : M unit :=
  s ← get_self;
  let ext_name := ext_name_of (_test_path s) in
  assign (with_test_name (Some (test_name_of (_test_path s))));;
  if String.eqb ext_name ".py" then
    assign (with_is_notebook (Some false))
  else if String.eqb ext_name ".ipynb" then
    assign (with_is_notebook (Some true))
  else
    raise (Exn RuntimeError
             ("Unrecognized test path file extension: '" ++ ext_name ++ "'")
             None).

(** The body that both [try] statements of [_compile] share: open the
    file, parse it, and validate it against the schema.  Its value is
    [raw_args]. *)
Definition read_config (path : string) : M pyval :=
  call (EOpen path) (builtin_open w path);;
  raw_args ← call_value (EYamlSafeLoad path) (yaml_safe_load w path);
  call (EMakeData path) (yamale_make_data w path);;
  call (EValidate (SCHEMA_CONFIG w) path)
    (yamale_validate w (SCHEMA_CONFIG w) path);;
  mret raw_args.

(** [_compile], lines 103-117: the schema and the default configuration. *)
Definition load_default_config : M unit :=
  call (EMakeSchema (SCHEMA_CONFIG w)) (yamale_make_schema w (SCHEMA_CONFIG w));;
  try_ (read_config (DEFAULT_CONFIG w))
    (fun e =>
       if isinstance e YAMLError then
         Some (raise (Exn RuntimeError
                        ("Illegal default config:" ++ str_of e) None))
       else if isinstance e OSError then
         Some (raise (Exn FileExistsError
                        ("Default config not found:" ++ str_of e) None))
       else None)
    (fun raw_args =>
       v ← lift (getitem raw_args "run_pipeline");
       assign (with_run_pipeline (Some v))).

(** The path of the per-test configuration. *)
Definition config_file_of (test_name : option string) : string :=
  os_path.join (CONFIG_DIR w) (fmt_s test_name ++ ".config.yaml").

(** [_compile], lines 121-158, the body of [if self._is_notebook]: the
    per-test configuration, papermill, and the conversion to a script.
    Its value is the conversion's [return_code]. *)
Definition prepare_notebook : M Z :=
  s ← get_self;
  let nb_params : gmap string pyval := ∅ in
  let config_file := config_file_of (_test_name s) in
  nb_params ←
    try_ (read_config config_file)
      (fun e =>
         if isinstance e YAMLError then
           Some (print ("No legit yaml config file found, use default args:"
                        ++ str_of e);;
                 mret nb_params)
         else if isinstance e OSError then
           Some (print
                   ("Config file with the same name not found, use default args:"
                    ++ str_of e);;
                 mret nb_params)
         else None)
      (fun raw_args =>
         has_params ← lift (in_keys "notebook_params" raw_args);
         nb_params ←
           (if has_params : bool then
              v ← lift (getitem raw_args "notebook_params");
              updated ← lift (dict_update nb_params v);
              v ← lift (getitem raw_args "notebook_params");
              has_output ← lift (in_keys "output" v);
              if has_output : bool then
                s ← get_self;
                mret (<["output" := PStr (_sample_test_output s)]> updated)
              else mret updated
            else mret nb_params);
         has_run ← lift (in_keys "run_pipeline" raw_args);
         (if has_run : bool then
            v ← lift (getitem raw_args "run_pipeline");
            assign (with_run_pipeline (Some v))
          else mret tt);;
         mret nb_params);
  s ← get_self;
  call (EExecuteNotebook (_test_path s) (_test_path s) nb_params true)
    (pm_execute_notebook w (_test_path s) nb_params);;
  call_value (ESubprocessCall (nbconvert_args (_test_path s)))
    (subprocess_call w (nbconvert_args (_test_path s))).

(** [_compile], lines 162-177: the temporary file, the compiler
    subprocess, and the assertion on its return code. *)
Definition compile_pipeline : M unit :=
  name ← call_value (ENamedTemporaryFile ".yaml")
           (tempfile_NamedTemporaryFile w ".yaml");
  assign (with_compiled_path (Some name));;
  s ← get_self;
  let compile_args := compile_args (_test_path s) name (_function s) in
  return_code ← call_value (ESubprocessCall compile_args)
                  (subprocess_call w compile_args);
  py_assert (return_code =? 0)%Z "".

(** [_compile] (lines 88-177).  The [return_code] of the conversion is a
    local variable that the compiler's [return_code] overwrites. *)
Definition _compile : M unit :=
  check_test_path;;
  determine_kind;;
  load_default_config;;
  s ← get_self;
  return_code ←
    (if truthy (_is_notebook s) then rc ← prepare_notebook; mret (Some rc)
     else mret None);
  compile_pipeline.

(** [_injection] (lines 179-184): [pass]. *)
Definition _injection : M unit := mret tt.

End Methods.

End SampleTest.

(** * class ComponentTest(SampleTest) *)

Module ComponentTest.

Import Regex.

(** The tag part of the first two patterns, [(\w+|[.-])+], and of the
    third, [(\w|[.-])+]. *)
Definition tag_words : regex :=
  Plus (Group (Alt (Plus WordChar) (CharSet (lit ".-")))).

Definition tag_chars : regex :=
  Plus (Group (Alt WordChar (CharSet (lit ".-")))).

(** The image names that the three patterns spell out. *)
Definition confusion_matrix_image : string :=
  "gcr.io/ml-pipeline/ml-pipeline/ml-pipeline-local-confusion-matrix".

Definition roc_image : string :=
  "gcr.io/ml-pipeline/ml-pipeline/ml-pipeline-local-roc".

Definition gcp_image : string := "gcr.io/ml-pipeline/ml-pipeline-gcp".

(** The keys of [subs] (lines 247, 249 and 254). *)
Definition confusion_matrix_pattern : regex :=
  lit_then (confusion_matrix_image ++ ":") tag_words.

Definition roc_pattern : regex := lit_then (roc_image ++ ":") tag_words.

Definition gcp_pattern : regex := lit_then (gcp_image ++ ":") tag_chars.

(** The keywords of the call [super().__init__(...)] on lines 235-239. *)
Definition super_init_keywords : list string :=
  ["test_name"; "results_gcs_dir"; "target_image_prefix"; "namespace"].

Section Methods.

Variable w : World.

(** [__init__] (lines 227-242).  The call to [super().__init__] is bound
    by keyword against the signature of [SampleTest.__init__]; only when
    the binding succeeds does the inherited body run. *)
Definition __init__ (test_name results_gcs_dir gcp_image
    local_confusionmatrix_image local_roc_image target_image_prefix
    namespace : string) : M unit :=
  match bind_keywords SampleTest.parameters SampleTest.required
          super_init_keywords with
  | Some e => raise e
  | None =>
      SampleTest.__init__ w test_name results_gcs_dir None ""
        target_image_prefix namespace
  end;;
  assign (with_local_confusionmatrix_image local_confusionmatrix_image);;
  assign (with_local_roc_image local_roc_image);;
  assign (with_dataproc_gcp_image gcp_image).

(** The two file names of [_injection]: ['%s.py.yaml' % self._test_name]
    and ['%s.py.yaml.tmp' % self._test_name]. *)
Definition injection_input (test_name : option string) : string :=
  fmt_s test_name ++ ".py.yaml".

Definition injection_output (test_name : option string) : string :=
  fmt_s test_name ++ ".py.yaml.tmp".

(** [subs] as first built (lines 246-251), and after [subs.update]
    (lines 253-256). *)
Definition base_subs (s : self_t) : list (regex * string) :=
  [(confusion_matrix_pattern, _local_confusionmatrix_image s);
   (roc_pattern, _local_roc_image s)].

Definition xgboost_subs (s : self_t) : list (regex * string) :=
  base_subs s ++ [(gcp_pattern, _dataproc_gcp_image s)].

Definition file_injection (file_in file_out : string)
    (subs : list (regex * string)) : M unit :=
  call (EFileInjection file_in file_out subs)
    (utils_file_injection w file_in file_out subs).

(** [_injection] (lines 244-264).  The call on line 263 stands after the
    [if]/[else], so it runs on both branches. *)
Definition _injection : M unit :=
  s ← get_self;
  let subs := base_subs s in
  subs ←
    (if bool_decide (_test_name s = Some "xgboost_training_cm") then
       let subs := xgboost_subs s in
       file_injection (injection_input (_test_name s))
         (injection_output (_test_name s)) subs;;
       mret subs
     else
       mret subs);
  file_injection (injection_input (_test_name s))
    (injection_output (_test_name s)) subs.

End Methods.

End ComponentTest.

(** * Methods resolved on the class of [self] *)

(** [self._injection()]: the override of [ComponentTest] for its instances,
    the method of [SampleTest] otherwise. *)
Definition _injection (w : World) : M unit :=
  s ← get_self;
  match cls s with
  | SampleTestK => SampleTest._injection
  | ComponentTestK => ComponentTest._injection w
  end.

(** [run_test] (lines 186-217), defined in [SampleTest] and inherited by
    [ComponentTest]. *)
Definition run_test (w : World) : M unit :=
  SampleTest._compile w;;
  _injection w;;
  s ← get_self;
  experiment_name ←
    match _test_name s with
    | Some n => mret (n ++ "-test")
    | None =>
        raise (Exn TypeError
                 "unsupported operand type(s) for +: 'NoneType' and 'str'"
                 None)
    end;
  setenv "KF_PIPELINES_OVERRIDE_EXPERIMENT_NAME" experiment_name;;
  if truthy (_is_notebook s) then
    run_pipeline ← getattr "_run_pipeline" (_run_pipeline s);
    call (ENoteBookChecker (_test_name s) (_sample_test_result s)
            run_pipeline experiment_name (_host s)) None;;
    call ENoteBookCheckerRun (NoteBookChecker_run w);;
    call (EChdir (SAMPLE_TEST_DIR w)) (os_chdir w (SAMPLE_TEST_DIR w));;
    call ENoteBookCheckerCheck (NoteBookChecker_check w)
  else
    call (EChdir (SAMPLE_TEST_DIR w)) (os_chdir w (SAMPLE_TEST_DIR w));;
    call (EPySampleChecker (_test_name s) (_compiled_path s)
            (_sample_test_output s) (_sample_test_result s) (_host s)
            (_namespace s) experiment_name) None;;
    call EPySampleCheckerRun (PySampleChecker_run w);;
    call EPySampleCheckerCheck (PySampleChecker_check w).

(** Construction: [__init__] on a fresh object; the object exists only if
    [__init__] returns. *)
Definition new_SampleTest (w : World) (env : gmap string string)
    (test_path results_gcs_dir : string) (function : option string)
    (host target_image_prefix namespace : string) : out unit :=
  SampleTest.__init__ w test_path results_gcs_dir function host
    target_image_prefix namespace
    {| self := blank SampleTestK; environ := env |}.

Definition new_ComponentTest (w : World) (env : gmap string string)
    (test_name results_gcs_dir gcp_image local_confusionmatrix_image
     local_roc_image target_image_prefix namespace : string) : out unit :=
  ComponentTest.__init__ w test_name results_gcs_dir gcp_image
    local_confusionmatrix_image local_roc_image target_image_prefix namespace
    {| self := blank ComponentTestK; environ := env |}.

(** * utils.file_injection *)

Module utils.

Import Regex.

Section Injection.

Variable is_word : ascii -> bool.

(** Modelled from the spec: [utils.file_injection], which the launcher
    imports and which is not among the sources.  The spec has it
    "substitute container image references in the compiled artifact using
    a fixed set of regex-to-replacement mappings": each mapping is applied
    in turn, in the order of the dictionary. *)
Definition substitute (subs : list (regex * string)) (content : text) : text :=
  fold_left (fun t sub => re_sub is_word (fst sub) (lit (snd sub)) t)
    subs content.

(** Modelled from the spec: the file-level effect of [utils.file_injection].
    The spec lists among the files produced "an additional substituted copy
    with a [.tmp] suffix": the output file receives the substituted content
    of the input file, which must exist. *)
Definition file_injection (files : gmap string text)
    (file_in file_out : string) (subs : list (regex * string))
  : exn + gmap string text :=
  match files !! file_in with
  | Some content => inr (<[file_out := substitute subs content]> files)
  | None => inl (Exn FileNotFoundError file_in None)
  end.

End Injection.

End utils.

(** * samples/v2/subdag.py *)

Module subdag.

(** The part of the pipeline SDK that the sample touches: calling a
    component or a pipeline inside a pipeline function adds a task, whose
    result caching is on until [set_caching_options] says otherwise. *)
Inductive argument : Type :=
| Constant (value : string)
| OutputOf (task : nat).

Record PipelineTask : Type := {
  component : string;
  arguments : list (string * argument);
  enable_caching : bool
}.

(** A pipeline function runs against the list of the tasks it has added. *)
Definition Pipeline (A : Type) : Type :=
  list PipelineTask -> A * list PipelineTask.

Definition pure {A} (a : A) : Pipeline A := fun ts => (a, ts).

Definition then_ {A B} (c : Pipeline A) (k : A -> Pipeline B) : Pipeline B :=
  fun ts => let '(a, ts') := c ts in k a ts'.

(** Calling a component: the new task is returned by its index. *)
Definition add_task (component : string)
    (arguments : list (string * argument)) : Pipeline nat :=
  fun ts =>
    (length ts,
     (ts ++ [{| component := component; arguments := arguments;
                enable_caching := true |}])%list).

(** [task.set_caching_options(enable_caching)]: the flag is stored in the
    task as given. *)
Definition set_caching_options (task : nat) (flag : bool) : Pipeline unit :=
  fun ts =>
    (tt,
     alter (fun t => {| component := component t; arguments := arguments t;
                        enable_caching := flag |}) task ts).

(** [task.output]. *)
Definition output (task : nat) : argument := OutputOf task.

(** The two components (lines 5-12) are called by name. *)
Definition inner_comp : Pipeline nat := add_task "inner_comp" [].

Definition outer_comp (input : argument) : Pipeline nat :=
  add_task "outer_comp" [("input", input)].

(** [inner_pipeline] (lines 15-19). *)
Definition inner_pipeline : Pipeline argument :=
  then_ inner_comp (fun inner_comp_task =>
  then_ (set_caching_options inner_comp_task false) (fun _ =>
  pure (output inner_comp_task))).

(** Using a pipeline as a step of another one adds one task for it. *)
Definition inner_pipeline_as_task : Pipeline nat :=
  add_task "inner_pipeline" [].

(** [outer_pipeline] (lines 21-25). *)
Definition outer_pipeline : Pipeline unit :=
  then_ inner_pipeline_as_task (fun inner_pipeline_task =>
  then_ (outer_comp (output inner_pipeline_task)) (fun outer_comp_task =>
  set_caching_options outer_comp_task false)).

(** The tasks of a pipeline function. *)
Definition tasks_of {A} (p : Pipeline A) : list PipelineTask := snd (p []).

(** The steps of the sample: those of both pipeline functions. *)
Definition steps : list PipelineTask :=
  (tasks_of inner_pipeline ++ tasks_of outer_pipeline)%list.

Definition caching_disabled (t : PipelineTask) : bool :=
  negb (enable_caching t).

End subdag.

(** * Vocabulary of the statements *)

(** [c] raises [e], whatever the memory it starts from. *)
Definition raises {A} (c : M A) (e : exn) : Prop :=
  forall m, result (c m) = Raise e.

(** A run that ended in an exception. *)
Definition aborted {A} (o : out A) : Prop := exists e, result o = Raise e.

(** The calls of the compilation proper: papermill and the two
    subprocesses. *)
Definition compilation_attempt (ev : event) : bool :=
  match ev with
  | EExecuteNotebook _ _ _ _ | ESubprocessCall _ => true
  | _ => false
  end.

(** The command line of the compiler. *)
Definition compiler_command (args : list string) : bool :=
  match args with
  | "kfp" :: "dsl" :: "compile" :: _ => true
  | _ => false
  end.

Definition compiler_call (ev : event) : bool :=
  match ev with
  | ESubprocessCall args => compiler_command args
  | _ => false
  end.

(** The calls of the run phase of [run_test]: everything after
    [_injection]. *)
Definition run_phase (ev : event) : bool :=
  match ev with
  | EChdir _ | ENoteBookChecker _ _ _ _ _ | ENoteBookCheckerRun
  | ENoteBookCheckerCheck | EPySampleChecker _ _ _ _ _ _ _
  | EPySampleCheckerRun | EPySampleCheckerCheck => true
  | _ => false
  end.

Definition injection_call (ev : event) : bool :=
  match ev with
  | EFileInjection _ _ _ => true
  | _ => false
  end.

(** [o] followed by [o']: the outcome of the second, the events of both. *)
Definition after {A B} (o : out A) (o' : out B) : out B :=
  {| result := result o'; final := final o';
     events := events o ++ events o' |}.

(** [wp c m Q]: the outcome of [c] from [m] satisfies [Q]. *)
Definition wp {A} (c : M A) (m : mem) (Q : out A -> Prop) : Prop := Q (c m).

(** * Worlds

    A world in which one oracle is replaced. *)
Definition set_kubernetes_load_incluster_config (v : option exn)
    (w : World) : World :=
  {| CONFIG_DIR := CONFIG_DIR w; DEFAULT_CONFIG := DEFAULT_CONFIG w;
     SCHEMA_CONFIG := SCHEMA_CONFIG w; SAMPLE_TEST_DIR := SAMPLE_TEST_DIR w;
     kubernetes_load_incluster_config := v;
     kubernetes_load_kube_config := kubernetes_load_kube_config w;
     os_path_isfile := os_path_isfile w; builtin_open := builtin_open w;
     yaml_safe_load := yaml_safe_load w;
     yamale_make_schema := yamale_make_schema w;
     yamale_make_data := yamale_make_data w;
     yamale_validate := yamale_validate w;
     pm_execute_notebook := pm_execute_notebook w;
     subprocess_call := subprocess_call w;
     tempfile_NamedTemporaryFile := tempfile_NamedTemporaryFile w;
     utils_file_injection := utils_file_injection w; os_chdir := os_chdir w;
     NoteBookChecker_run := NoteBookChecker_run w;
     NoteBookChecker_check := NoteBookChecker_check w;
     PySampleChecker_run := PySampleChecker_run w;
     PySampleChecker_check := PySampleChecker_check w |}.

Definition set_kubernetes_load_kube_config (v : option exn)
    (w : World) : World :=
  {| CONFIG_DIR := CONFIG_DIR w; DEFAULT_CONFIG := DEFAULT_CONFIG w;
     SCHEMA_CONFIG := SCHEMA_CONFIG w; SAMPLE_TEST_DIR := SAMPLE_TEST_DIR w;
     kubernetes_load_incluster_config := kubernetes_load_incluster_config w;
     kubernetes_load_kube_config := v; os_path_isfile := os_path_isfile w;
     builtin_open := builtin_open w; yaml_safe_load := yaml_safe_load w;
     yamale_make_schema := yamale_make_schema w;
     yamale_make_data := yamale_make_data w;
     yamale_validate := yamale_validate w;
     pm_execute_notebook := pm_execute_notebook w;
     subprocess_call := subprocess_call w;
     tempfile_NamedTemporaryFile := tempfile_NamedTemporaryFile w;
     utils_file_injection := utils_file_injection w; os_chdir := os_chdir w;
     NoteBookChecker_run := NoteBookChecker_run w;
     NoteBookChecker_check := NoteBookChecker_check w;
     PySampleChecker_run := PySampleChecker_run w;
     PySampleChecker_check := PySampleChecker_check w |}.

Definition set_builtin_open (v : string -> option exn) (w : World) : World :=
  {| CONFIG_DIR := CONFIG_DIR w; DEFAULT_CONFIG := DEFAULT_CONFIG w;
     SCHEMA_CONFIG := SCHEMA_CONFIG w; SAMPLE_TEST_DIR := SAMPLE_TEST_DIR w;
     kubernetes_load_incluster_config := kubernetes_load_incluster_config w;
     kubernetes_load_kube_config := kubernetes_load_kube_config w;
     os_path_isfile := os_path_isfile w; builtin_open := v;
     yaml_safe_load := yaml_safe_load w;
     yamale_make_schema := yamale_make_schema w;
     yamale_make_data := yamale_make_data w;
     yamale_validate := yamale_validate w;
     pm_execute_notebook := pm_execute_notebook w;
     subprocess_call := subprocess_call w;
     tempfile_NamedTemporaryFile := tempfile_NamedTemporaryFile w;
     utils_file_injection := utils_file_injection w; os_chdir := os_chdir w;
     NoteBookChecker_run := NoteBookChecker_run w;
     NoteBookChecker_check := NoteBookChecker_check w;
     PySampleChecker_run := PySampleChecker_run w;
     PySampleChecker_check := PySampleChecker_check w |}.

Definition set_yamale_validate (v : string -> string -> option exn)
    (w : World) : World :=
  {| CONFIG_DIR := CONFIG_DIR w; DEFAULT_CONFIG := DEFAULT_CONFIG w;
     SCHEMA_CONFIG := SCHEMA_CONFIG w; SAMPLE_TEST_DIR := SAMPLE_TEST_DIR w;
     kubernetes_load_incluster_config := kubernetes_load_incluster_config w;
     kubernetes_load_kube_config := kubernetes_load_kube_config w;
     os_path_isfile := os_path_isfile w; builtin_open := builtin_open w;
     yaml_safe_load := yaml_safe_load w;
     yamale_make_schema := yamale_make_schema w;
     yamale_make_data := yamale_make_data w; yamale_validate := v;
     pm_execute_notebook := pm_execute_notebook w;
     subprocess_call := subprocess_call w;
     tempfile_NamedTemporaryFile := tempfile_NamedTemporaryFile w;
     utils_file_injection := utils_file_injection w; os_chdir := os_chdir w;
     NoteBookChecker_run := NoteBookChecker_run w;
     NoteBookChecker_check := NoteBookChecker_check w;
     PySampleChecker_run := PySampleChecker_run w;
     PySampleChecker_check := PySampleChecker_check w |}.

Definition set_subprocess_call (v : list string -> exn + Z)
    (w : World) : World :=
  {| CONFIG_DIR := CONFIG_DIR w; DEFAULT_CONFIG := DEFAULT_CONFIG w;
     SCHEMA_CONFIG := SCHEMA_CONFIG w; SAMPLE_TEST_DIR := SAMPLE_TEST_DIR w;
     kubernetes_load_incluster_config := kubernetes_load_incluster_config w;
     kubernetes_load_kube_config := kubernetes_load_kube_config w;
     os_path_isfile := os_path_isfile w; builtin_open := builtin_open w;
     yaml_safe_load := yaml_safe_load w;
     yamale_make_schema := yamale_make_schema w;
     yamale_make_data := yamale_make_data w;
     yamale_validate := yamale_validate w;
     pm_execute_notebook := pm_execute_notebook w; subprocess_call := v;
     tempfile_NamedTemporaryFile := tempfile_NamedTemporaryFile w;
     utils_file_injection := utils_file_injection w; os_chdir := os_chdir w;
     NoteBookChecker_run := NoteBookChecker_run w;
     NoteBookChecker_check := NoteBookChecker_check w;
     PySampleChecker_run := PySampleChecker_run w;
     PySampleChecker_check := PySampleChecker_check w |}.

Definition set_utils_file_injection (v : string -> string -> list (Regex.regex * string) -> option exn)
    (w : World) : World :=
  {| CONFIG_DIR := CONFIG_DIR w; DEFAULT_CONFIG := DEFAULT_CONFIG w;
     SCHEMA_CONFIG := SCHEMA_CONFIG w; SAMPLE_TEST_DIR := SAMPLE_TEST_DIR w;
     kubernetes_load_incluster_config := kubernetes_load_incluster_config w;
     kubernetes_load_kube_config := kubernetes_load_kube_config w;
     os_path_isfile := os_path_isfile w; builtin_open := builtin_open w;
     yaml_safe_load := yaml_safe_load w;
     yamale_make_schema := yamale_make_schema w;
     yamale_make_data := yamale_make_data w;
     yamale_validate := yamale_validate w;
     pm_execute_notebook := pm_execute_notebook w;
     subprocess_call := subprocess_call w;
     tempfile_NamedTemporaryFile := tempfile_NamedTemporaryFile w;
     utils_file_injection := v; os_chdir := os_chdir w;
     NoteBookChecker_run := NoteBookChecker_run w;
     NoteBookChecker_check := NoteBookChecker_check w;
     PySampleChecker_run := PySampleChecker_run w;
     PySampleChecker_check := PySampleChecker_check w |}.

(** A world in which every call returns: the path is a file, the default
    configuration is [{run_pipeline: true}], the per-test configuration adds
    notebook parameters, the subprocesses exit with 0, and the cluster
    credentials load in-cluster. *)
Definition quiet_world : World :=
  {| CONFIG_DIR := "/python/src/test/sample-test/configs";
     DEFAULT_CONFIG := "/python/src/test/sample-test/configs/default.config.yaml";
     SCHEMA_CONFIG := "/python/src/test/sample-test/configs/schema.config.yaml";
     SAMPLE_TEST_DIR := "/python/src/test/sample-test";
     kubernetes_load_incluster_config := None;
     kubernetes_load_kube_config := None;
     os_path_isfile := fun _ => true;
     builtin_open := fun _ => None;
     yaml_safe_load := fun path =>
       if String.eqb path
            "/python/src/test/sample-test/configs/default.config.yaml"
       then inr (PDict {[ "run_pipeline" := PBool true ]})
       else inr (PDict {[ "notebook_params" :=
                            PDict {[ "output" := PStr "";
                                     "project" := PStr "ml-pipeline-test" ]};
                          "run_pipeline" := PBool false ]});
     yamale_make_schema := fun _ => None;
     yamale_make_data := fun _ => None;
     yamale_validate := fun _ _ => None;
     pm_execute_notebook := fun _ _ => None;
     subprocess_call := fun _ => inr 0%Z;
     tempfile_NamedTemporaryFile := fun suffix => inr ("/tmp/tmp8k2x1q" ++ suffix);
     utils_file_injection := fun _ _ _ => None;
     os_chdir := fun _ => None;
     NoteBookChecker_run := None;
     NoteBookChecker_check := None;
     PySampleChecker_run := None;
     PySampleChecker_check := None |}.

(** A memory holding [s], with an empty environment. *)
Definition mem_of (s : self_t) : mem := {| self := s; environ := ∅ |}.

(** A constructed [SampleTest] for the given path, with an explicit host. *)
Definition sample_test (test_path : string) : mem :=
  final (new_SampleTest quiet_world ∅ test_path "gs://results" None
           "http://ml-pipeline:8888" "" "kubeflow").

(** The two notebook worlds of the per-test configuration: one without the
    file, one whose file does not satisfy the schema. *)
Definition missing_config : exn :=
  Exn FileNotFoundError "[Errno 2] No such file or directory" None.

Definition invalid_config : exn :=
  Exn YamaleError "notebook_params: 'none' is not a map." None.

Definition world_without_test_config : World :=
  set_builtin_open
    (fun path =>
       if String.eqb path (DEFAULT_CONFIG quiet_world) then None
       else Some missing_config)
    quiet_world.

Definition world_with_invalid_test_config : World :=
  set_yamale_validate
    (fun _ path =>
       if String.eqb path (DEFAULT_CONFIG quiet_world) then None
       else Some invalid_config)
    quiet_world.

Definition notebook_path : string :=
  "samples/core/lightweight_component/lightweight_component.ipynb".

Definition script_path : string :=
  "samples/core/exit_handler/exit_handler.py".

(** The world [w], except that the conversion of the notebook at
    [test_path] exits with [return_code]. *)
Definition with_nbconvert_exit (return_code : Z) (test_path : string)
    (w : World) : World :=
  set_subprocess_call
    (fun args =>
       if decide (args = SampleTest.nbconvert_args test_path)
       then inr return_code
       else subprocess_call w args)
    w.

(** A [ComponentTest] object as its [__init__] is meant to build it: the
    attributes of [SampleTest.__init__] and the three images. *)
Definition component_test (test_path : string) : mem :=
  let o := SampleTest.__init__ quiet_world test_path "gs://results" None
             "http://ml-pipeline:8888" "" "kubeflow"
             {| self := blank ComponentTestK; environ := ∅ |} in
  mem_of
    (with_dataproc_gcp_image "gcr.io/ml-pipeline-test/ml-pipeline-gcp:0f3a"
       (with_local_roc_image "gcr.io/ml-pipeline-test/local-roc:0f3a"
          (with_local_confusionmatrix_image
             "gcr.io/ml-pipeline-test/local-confusion-matrix:0f3a"
             (self (final o))))).

(** A world in which the file that [_injection] reads does not exist. *)
Definition world_without_injection_input : World :=
  set_utils_file_injection (fun _ _ _ => Some missing_config) quiet_world.

(** * Image references *)

(** A character of a tag: a word character, a dot or a hyphen. *)
Definition tag_char (is_word : ascii -> bool) (a : ascii) : bool :=
  is_word a || existsb (Ascii.eqb a) (Regex.lit ".-").

(** A fully-qualified reference to the image [name]: the name, a colon and
    a non-empty tag. *)
Definition image_reference (is_word : ascii -> bool) (name : string)
    (m : Regex.text) : Prop :=
  exists tag,
    m = (Regex.lit name ++ Regex.lit ":" ++ tag)%list /\ tag <> [] /\
    Forall (fun a => tag_char is_word a = true) tag.

(** The segments that a scan for the image [name] may replace. *)
Definition replaces_only (is_word : ascii -> bool) (name : string)
    (ps : list Regex.piece) : Prop :=
  Forall (fun p =>
            match p with
            | Regex.Keep _ => True
            | Regex.Replaced m => image_reference is_word name m
            end) ps.

(** What one mapping of [subs] does, for the image [name]: the pattern
    matches the references to the image and nothing else; and substituting
    cuts any text into pieces -- kept characters and replaced references --
    of which only the references change. *)
Definition substitutes_image (is_word : ascii -> bool) (name : string)
    (sub : Regex.regex * string) : Prop :=
  (forall m, Regex.matches is_word (fst sub) m
             <-> image_reference is_word name m) /\
  forall text,
    exists ps,
      Regex.original ps = text /\
      utils.substitute is_word [sub] text
      = Regex.rendered (Regex.lit (snd sub)) ps /\
      replaces_only is_word name ps.

(** * Properties of programs *)

(** [keeps f c]: running [c] leaves the attribute (or any function of the
    object) [f] as it was, also when [c] raises. *)
Definition keeps {A X} (f : self_t -> X) (c : M A) : Prop :=
  forall m, f (self (final (c m))) = f (self m).

(** [emits P c]: every call [c] makes satisfies [P]. *)
Definition emits {A} (P : event -> Prop) (c : M A) : Prop :=
  forall m, Forall P (events (c m)).

(** The calls made before the run phase: no checker, no change of
    directory, no image injection. *)
Definition before_run (ev : event) : Prop :=
  run_phase ev = false /\ injection_call ev = false.

(** Two outcomes with the same memory and the same calls, which either
    both returned (no matter what) or raised the same exception. *)
Definition same_effect {A} (o1 o2 : out A) : Prop :=
  final o1 = final o2 /\ events o1 = events o2 /\
  match result o1, result o2 with
  | Ok _, Ok _ => True
  | Raise e1, Raise e2 => e1 = e2
  | _, _ => False
  end.

(** Soundness of the matcher on a pattern: what it consumed is a match, and
    the continuation accepted the rest. *)
Definition sound_on (is_word : ascii -> bool) (r : Regex.regex) : Prop :=
  forall s k x,
    Regex.bt is_word r s k = Some x ->
    exists m rest,
      s = (m ++ rest)%list /\ Regex.matches is_word r m /\ k rest = Some x.

(** * More worlds *)

Definition set_yaml_safe_load (v : string -> exn + pyval) (w : World)
  : World :=
  {| CONFIG_DIR := CONFIG_DIR w; DEFAULT_CONFIG := DEFAULT_CONFIG w;
     SCHEMA_CONFIG := SCHEMA_CONFIG w; SAMPLE_TEST_DIR := SAMPLE_TEST_DIR w;
     kubernetes_load_incluster_config := kubernetes_load_incluster_config w;
     kubernetes_load_kube_config := kubernetes_load_kube_config w;
     os_path_isfile := os_path_isfile w; builtin_open := builtin_open w;
     yaml_safe_load := v;
     yamale_make_schema := yamale_make_schema w;
     yamale_make_data := yamale_make_data w;
     yamale_validate := yamale_validate w;
     pm_execute_notebook := pm_execute_notebook w;
     subprocess_call := subprocess_call w;
     tempfile_NamedTemporaryFile := tempfile_NamedTemporaryFile w;
     utils_file_injection := utils_file_injection w; os_chdir := os_chdir w;
     NoteBookChecker_run := NoteBookChecker_run w;
     NoteBookChecker_check := NoteBookChecker_check w;
     PySampleChecker_run := PySampleChecker_run w;
     PySampleChecker_check := PySampleChecker_check w |}.

Definition set_pm_execute_notebook
    (v : string -> gmap string pyval -> option exn) (w : World) : World :=
  {| CONFIG_DIR := CONFIG_DIR w; DEFAULT_CONFIG := DEFAULT_CONFIG w;
     SCHEMA_CONFIG := SCHEMA_CONFIG w; SAMPLE_TEST_DIR := SAMPLE_TEST_DIR w;
     kubernetes_load_incluster_config := kubernetes_load_incluster_config w;
     kubernetes_load_kube_config := kubernetes_load_kube_config w;
     os_path_isfile := os_path_isfile w; builtin_open := builtin_open w;
     yaml_safe_load := yaml_safe_load w;
     yamale_make_schema := yamale_make_schema w;
     yamale_make_data := yamale_make_data w;
     yamale_validate := yamale_validate w;
     pm_execute_notebook := v;
     subprocess_call := subprocess_call w;
     tempfile_NamedTemporaryFile := tempfile_NamedTemporaryFile w;
     utils_file_injection := utils_file_injection w; os_chdir := os_chdir w;
     NoteBookChecker_run := NoteBookChecker_run w;
     NoteBookChecker_check := NoteBookChecker_check w;
     PySampleChecker_run := PySampleChecker_run w;
     PySampleChecker_check := PySampleChecker_check w |}.



Definition set_os_path_isfile (v : string -> bool) (w : World) : World :=
  {| CONFIG_DIR := CONFIG_DIR w; DEFAULT_CONFIG := DEFAULT_CONFIG w;
     SCHEMA_CONFIG := SCHEMA_CONFIG w; SAMPLE_TEST_DIR := SAMPLE_TEST_DIR w;
     kubernetes_load_incluster_config := kubernetes_load_incluster_config w;
     kubernetes_load_kube_config := kubernetes_load_kube_config w;
     os_path_isfile := v; builtin_open := builtin_open w;
     yaml_safe_load := yaml_safe_load w;
     yamale_make_schema := yamale_make_schema w;
     yamale_make_data := yamale_make_data w;
     yamale_validate := yamale_validate w;
     pm_execute_notebook := pm_execute_notebook w;
     subprocess_call := subprocess_call w;
     tempfile_NamedTemporaryFile := tempfile_NamedTemporaryFile w;
     utils_file_injection := utils_file_injection w; os_chdir := os_chdir w;
     NoteBookChecker_run := NoteBookChecker_run w;
     NoteBookChecker_check := NoteBookChecker_check w;
     PySampleChecker_run := PySampleChecker_run w;
     PySampleChecker_check := PySampleChecker_check w |}.

Definition set_yamale_make_schema (v : string -> option exn) (w : World)
  : World :=
  {| CONFIG_DIR := CONFIG_DIR w; DEFAULT_CONFIG := DEFAULT_CONFIG w;
     SCHEMA_CONFIG := SCHEMA_CONFIG w; SAMPLE_TEST_DIR := SAMPLE_TEST_DIR w;
     kubernetes_load_incluster_config := kubernetes_load_incluster_config w;
     kubernetes_load_kube_config := kubernetes_load_kube_config w;
     os_path_isfile := os_path_isfile w; builtin_open := builtin_open w;
     yaml_safe_load := yaml_safe_load w;
     yamale_make_schema := v;
     yamale_make_data := yamale_make_data w;
     yamale_validate := yamale_validate w;
     pm_execute_notebook := pm_execute_notebook w;
     subprocess_call := subprocess_call w;
     tempfile_NamedTemporaryFile := tempfile_NamedTemporaryFile w;
     utils_file_injection := utils_file_injection w; os_chdir := os_chdir w;
     NoteBookChecker_run := NoteBookChecker_run w;
     NoteBookChecker_check := NoteBookChecker_check w;
     PySampleChecker_run := PySampleChecker_run w;
     PySampleChecker_check := PySampleChecker_check w |}.

(** The quiet world, except for what the per-test configuration loads
    to. *)
Definition world_with_test_config (raw : pyval) : World :=
  set_yaml_safe_load
    (fun path =>
       if String.eqb path (DEFAULT_CONFIG quiet_world)
       then yaml_safe_load quiet_world path
       else inr raw)
    quiet_world.

(** The quiet world, except for what the default configuration loads
    to. *)
Definition world_with_default_config (raw : pyval) : World :=
  set_yaml_safe_load
    (fun path =>
       if String.eqb path (DEFAULT_CONFIG quiet_world)
       then inr raw
       else yaml_safe_load quiet_world path)
    quiet_world.

(** A notebook test as [_compile] leaves it after looking at its path. *)
Definition notebook_test : mem :=
  final (SampleTest.determine_kind (sample_test notebook_path)).

(** * Calls in a row *)


(** The calls of [_compile] that work on the test itself, in the order
    they were made. *)
Definition compilation_attempts (evs : list event) : list event :=
  List.filter compilation_attempt evs.

(** * Paths *)

(** [c in s]. *)
Definition contains (c : ascii) (s : string) : Prop := c ∈ Regex.lit s.

(** * Scripts *)

(** What the log of a script test may hold. *)
Definition script_event (w : World) (ev : event) : Prop :=
  match ev with
  | EExecuteNotebook _ _ _ _ | EPrint _ => False
  | ESubprocessCall args => compiler_command args = true
  | EOpen path | EYamlSafeLoad path | EMakeData path | EValidate _ path =>
      path = DEFAULT_CONFIG w
  | _ => True
  end.

(** * Notebooks *)

Definition papermill_call (ev : event) : bool :=
  match ev with
  | EExecuteNotebook _ _ _ _ => true
  | _ => false
  end.

(** * Where a tag ends *)

(** The text after a tag: it is empty, or it starts with a character that
    cannot belong to a tag. *)
Definition ends_tag (is_word : ascii -> bool) (rest : Regex.text) : Prop :=
  match rest with
  | [] => True
  | b :: _ => tag_char is_word b = false
  end.

(** A continuation of the matcher that answers [x] wherever the matcher
    can get to from a text of length [bound]: further on in the tag, or at
    its end, where [rest] begins. *)
Definition good (is_word : ascii -> bool) (rest x : Regex.text)
    (K : Regex.text -> option Regex.text) (bound : nat) : Prop :=
  forall t,
    Forall (fun a => tag_char is_word a = true) t ->
    length (t ++ rest)%list < bound ->
    K (t ++ rest)%list = Some x.

(** One iteration of a loop over the characters of a tag: it answers [x]
    at a tag character and refuses at the end of the tag. *)
Definition steps_through (is_word : ascii -> bool) (rest x : Regex.text)
    (r : Regex.regex) : Prop :=
  (forall K a t,
     tag_char is_word a = true ->
     Forall (fun a => tag_char is_word a = true) t ->
     good is_word rest x K (length (a :: t ++ rest)%list) ->
     Regex.bt is_word r (a :: t ++ rest)%list K = Some x) /\
  (forall K, Regex.bt is_word r rest K = None).

(** * The embedding against the source: file names and patterns *)

Module os_path_examples.

Import os_path.

Example split_nested : split "samples/core/exit_handler/exit_handler.py"
                       = ("samples/core/exit_handler", "exit_handler.py").
Proof. reflexivity. Qed.

Example splitext_py : splitext "exit_handler.py" = ("exit_handler", ".py").
Proof. reflexivity. Qed.

Example splitext_two_dots : splitext "a.b.ipynb" = ("a.b", ".ipynb").
Proof. reflexivity. Qed.

Example splitext_hidden : splitext ".py" = (".py", "").
Proof. reflexivity. Qed.

Example splitext_none : splitext "Makefile" = ("Makefile", "").
Proof. reflexivity. Qed.

Example join_plain : join "configs" "a.config.yaml" = "configs/a.config.yaml".
Proof. reflexivity. Qed.

End os_path_examples.

(** The abstract patterns of [_injection] print as the string literals of
    the source. *)
Module pattern_examples.

Import Regex ComponentTest.

Example confusion_matrix_pattern_source :
  show confusion_matrix_pattern
  = "gcr\.io/ml-pipeline/ml-pipeline/ml-pipeline-local-confusion-matrix:(\w+|[.-])+".
Proof. reflexivity. Qed.

Example roc_pattern_source :
  show roc_pattern
  = "gcr\.io/ml-pipeline/ml-pipeline/ml-pipeline-local-roc:(\w+|[.-])+".
Proof. reflexivity. Qed.

Example gcp_pattern_source :
  show gcp_pattern = "gcr\.io/ml-pipeline/ml-pipeline-gcp:(\w|[.-])+".
Proof. reflexivity. Qed.

End pattern_examples.

(** * Laws of the monad *)

Section MonadLaws.

Context {A B : Type}.
Implicit Types (c : M A) (k : A -> M B) (m : mem).

Lemma bind_ok c k m a :
  result (c m) = Ok a -> (c ≫= k) m = continue (c m) (k a).
Proof. intros H. unfold mbind, M_bind, bind. now rewrite H. Qed.

Lemma bind_raise c k m e :
  result (c m) = Raise e ->
  (c ≫= k) m
  = {| result := Raise e; final := final (c m); events := events (c m) |}.
Proof. intros H. unfold mbind, M_bind, bind. now rewrite H. Qed.

(** Symbolic execution, one statement at a time: the postcondition of a
    sequence is pushed into its first part. *)
Lemma wp_bind c k m (Q : out B -> Prop) :
  wp c m (fun o =>
            match result o with
            | Ok a => wp (k a) (final o) (fun o' => Q (after o o'))
            | Raise e =>
                Q {| result := Raise e; final := final o; events := events o |}
            end) ->
  wp (c ≫= k) m Q.
Proof.
  unfold wp. destruct (result (c m)) eqn:E.
  - now rewrite (bind_ok _ _ _ _ E).
  - now rewrite (bind_raise _ _ _ _ E).
Qed.

Lemma wp_try c (handlers : exn -> option (M B)) k m (Q : out B -> Prop) :
  wp c m (fun o =>
            match result o with
            | Ok a => wp (k a) (final o) (fun o' => Q (after o o'))
            | Raise e =>
                match handlers e with
                | Some h => wp h (final o) (fun o' => Q (after o o'))
                | None =>
                    Q {| result := Raise e; final := final o;
                         events := events o |}
                end
            end) ->
  wp (try_ c handlers k) m Q.
Proof.
  unfold wp, try_, continue, after. destruct (result (c m)); [easy|].
  now destruct (handlers e).
Qed.

End MonadLaws.

Section Primitives.

Context {A : Type}.
Implicit Types (m : mem) (Q : out A -> Prop).

Lemma wp_returns (a : A) m Q :
  Q {| result := Ok a; final := m; events := [] |} -> wp (returns a) m Q.
Proof. exact id. Qed.

Lemma wp_mret (a : A) m Q :
  Q {| result := Ok a; final := m; events := [] |} -> wp (mret a) m Q.
Proof. exact id. Qed.

Lemma wp_raise (e : exn) m Q :
  Q {| result := Raise e; final := m; events := [] |} -> wp (raise e) m Q.
Proof. exact id. Qed.

Lemma wp_lift (r : exn + A) m Q :
  Q {| result := match r with inl e => Raise e | inr a => Ok a end;
       final := m; events := [] |} ->
  wp (lift r) m Q.
Proof. now destruct r. Qed.

Lemma wp_call_value ev (answer : exn + A) m Q :
  Q {| result := match answer with inl e => Raise e | inr a => Ok a end;
       final := m; events := [ev] |} ->
  wp (call_value ev answer) m Q.
Proof. exact id. Qed.

Lemma wp_getattr name (x : option A) m Q :
  Q {| result :=
         match x with
         | Some v => Ok v
         | None =>
             Raise (Exn AttributeError
                      ("object has no attribute '" ++ name ++ "'") None)
         end;
       final := m; events := [] |} ->
  wp (getattr name x) m Q.
Proof. now destruct x. Qed.

End Primitives.

Section UnitPrimitives.

Implicit Types (m : mem) (Q : out unit -> Prop).

Lemma wp_assign f m Q :
  Q {| result := Ok tt;
       final := {| self := f (self m); environ := environ m |};
       events := [] |} ->
  wp (assign f) m Q.
Proof. exact id. Qed.

Lemma wp_setenv k v m Q :
  Q {| result := Ok tt;
       final := {| self := self m; environ := <[k := v]> (environ m) |};
       events := [] |} ->
  wp (setenv k v) m Q.
Proof. exact id. Qed.

Lemma wp_call ev answer m Q :
  Q {| result := match answer with Some e => Raise e | None => Ok tt end;
       final := m; events := [ev] |} ->
  wp (call ev answer) m Q.
Proof. exact id. Qed.

Lemma wp_print line m Q :
  Q {| result := Ok tt; final := m; events := [EPrint line] |} ->
  wp (print line) m Q.
Proof. exact id. Qed.

Lemma wp_assert (cond : bool) msg m Q :
  Q {| result := if cond then Ok tt else Raise (Exn AssertionError msg None);
       final := m; events := [] |} ->
  wp (py_assert cond msg) m Q.
Proof. now destruct cond. Qed.

End UnitPrimitives.

Lemma wp_get_self m (Q : out self_t -> Prop) :
  Q {| result := Ok (self m); final := m; events := [] |} -> wp get_self m Q.
Proof. exact id. Qed.

(** Reduction of the projections of outcomes, memories and objects. *)
Ltac simp_state :=
  cbn [after result final events self environ app
       cls _test_name _test_path _compiled_path _results_gcs_dir _function
       _target_image_prefix _namespace _host _is_notebook
       _sample_test_result _sample_test_output _run_pipeline
       _local_confusionmatrix_image _local_roc_image _dataproc_gcp_image
       with_test_name with_test_path with_compiled_path with_results_gcs_dir
       with_function with_target_image_prefix with_namespace with_host
       with_is_notebook with_sample_test_result with_sample_test_output
       with_run_pipeline with_local_confusionmatrix_image
       with_local_roc_image with_dataproc_gcp_image blank truthy fmt_s
       CONFIG_DIR DEFAULT_CONFIG SCHEMA_CONFIG SAMPLE_TEST_DIR
       kubernetes_load_incluster_config kubernetes_load_kube_config
       os_path_isfile builtin_open yaml_safe_load yamale_make_schema
       yamale_make_data yamale_validate pm_execute_notebook subprocess_call
       tempfile_NamedTemporaryFile utils_file_injection os_chdir
       NoteBookChecker_run NoteBookChecker_check PySampleChecker_run
       PySampleChecker_check set_subprocess_call].

(** The answer a stuck run is waiting for: the innermost scrutinee. *)
Ltac scrutinee x :=
  lazymatch x with
  | match ?y with _ => _ end => scrutinee y
  | _ => x
  end.

Ltac head_of t :=
  lazymatch t with
  | ?f _ => head_of f
  | _ => t
  end.

(** An answer already found on this path is reused. *)
Ltac case_on x :=
  let y := scrutinee x in
  first [ match goal with E : y = _ |- _ => rewrite E end
        | destruct y eqn:? ].

(** One step of symbolic execution: a rule for the statement at the head,
    or a case distinction on the answer the run is waiting for. *)
Ltac wp_step :=
  lazymatch goal with
  | |- wp (mbind _ _) _ _ => apply wp_bind
  | |- wp (try_ _ _ _) _ _ => apply wp_try
  | |- wp (assign _) _ _ => apply wp_assign
  | |- wp get_self _ _ => apply wp_get_self
  | |- wp (setenv _ _) _ _ => apply wp_setenv
  | |- wp (print _) _ _ => apply wp_print
  | |- wp (call _ _) _ _ => apply wp_call
  | |- wp (call_value _ _) _ _ => apply wp_call_value
  | |- wp (lift _) _ _ => apply wp_lift
  | |- wp (py_assert _ _) _ _ => apply wp_assert
  | |- wp (getattr _ _) _ _ => apply wp_getattr
  | |- wp (returns _) _ _ => apply wp_returns
  | |- wp (raise _) _ _ => apply wp_raise
  | |- wp (mret _) _ _ => apply wp_mret
  | |- wp (match ?x with _ => _ end) _ _ => case_on x
  | |- wp ?c _ _ => let h := head_of c in unfold h at 1
  | |- match ?x with _ => _ end => case_on x
  end.

Ltac wp_go := repeat (wp_step; simp_state).

(** Start a symbolic run of [c] from [m] for the goal at hand. *)
Ltac wp_start c m :=
  pattern (c m);
  lazymatch goal with |- ?Q (c m) => change (wp c m Q) end.

(** * Three ways to reason about a program

    Beside running it, a program is reasoned about by what it keeps, by
    what it emits, and by comparison with a program that differs from it
    in a value nobody reads. *)

(** ** Objects keep what no statement assigns *)

Section Keeps.

Context {X : Type} (f : self_t -> X).

Lemma keeps_bind {A B} (c : M A) (k : A -> M B) :
  keeps f c -> (forall a, keeps f (k a)) -> keeps f (c ≫= k).
Proof.
  intros Hc Hk m. destruct (result (c m)) eqn:E.
  - rewrite (bind_ok _ _ _ _ E). cbn. now rewrite Hk.
  - rewrite (bind_raise _ _ _ _ E). cbn. apply Hc.
Qed.

Lemma keeps_try {A B} (c : M A) (handlers : exn -> option (M B))
    (k : A -> M B) :
  keeps f c -> (forall e h, handlers e = Some h -> keeps f h) ->
  (forall a, keeps f (k a)) -> keeps f (try_ c handlers k).
Proof.
  intros Hc Hh Hk m. unfold try_, continue.
  destruct (result (c m)) eqn:E; cbn.
  - now rewrite Hk.
  - destruct (handlers e) eqn:Eh; cbn; [|apply Hc].
    now rewrite (Hh _ _ Eh).
Qed.

Lemma keeps_assign g : (forall s, f (g s) = f s) -> keeps f (assign g).
Proof. intros H m. apply H. Qed.

Lemma keeps_get_self : keeps f get_self.
Proof. now intros m. Qed.

Lemma keeps_setenv k v : keeps f (setenv k v).
Proof. now intros m. Qed.

Lemma keeps_call ev answer : keeps f (call ev answer).
Proof. now intros m. Qed.

Lemma keeps_print line : keeps f (print line).
Proof. now intros m. Qed.

Lemma keeps_call_value {A} ev (answer : exn + A) :
  keeps f (call_value ev answer).
Proof. now intros m. Qed.

Lemma keeps_lift {A} (r : exn + A) : keeps f (lift r).
Proof. now destruct r. Qed.

Lemma keeps_assert cond msg : keeps f (py_assert cond msg).
Proof. now destruct cond. Qed.

Lemma keeps_mret {A} (a : A) : keeps f (mret a).
Proof. now intros m. Qed.

Lemma keeps_raise {A} e : keeps f (@raise A e).
Proof. now intros m. Qed.

Lemma keeps_if {A} (b : bool) (c1 c2 : M A) :
  keeps f c1 -> keeps f c2 -> keeps f (if b then c1 else c2).
Proof. now destruct b. Qed.

End Keeps.

Create HintDb keeps discriminated.

#[local] Hint Resolve keeps_bind keeps_get_self keeps_setenv keeps_call
  keeps_print keeps_call_value keeps_lift keeps_assert keeps_mret
  keeps_raise keeps_if : keeps.

#[local] Hint Extern 1 (keeps _ (assign _)) =>
  apply keeps_assign; intros []; reflexivity : keeps.

(** The handlers of the launcher are chains of [if isinstance ...]. *)
#[local] Hint Extern 2 (keeps _ (try_ _ _ _)) =>
  apply keeps_try;
  [ | let e := fresh in let h := fresh in let E := fresh in
      intros e h E;
      repeat match type of E with
             | (if ?b then _ else _) = _ => destruct b
             end;
      inversion E; subst h
    | intros ] : keeps.

(** ** What a program can emit *)

Section Emits.

Variable P : event -> Prop.

Lemma emits_bind {A B} (c : M A) (k : A -> M B) :
  emits P c -> (forall a, emits P (k a)) -> emits P (c ≫= k).
Proof.
  intros Hc Hk m. destruct (result (c m)) eqn:E.
  - rewrite (bind_ok _ _ _ _ E). cbn. apply Forall_app. split; [apply Hc|apply Hk].
  - rewrite (bind_raise _ _ _ _ E). cbn. apply Hc.
Qed.

Lemma emits_try {A B} (c : M A) (handlers : exn -> option (M B))
    (k : A -> M B) :
  emits P c -> (forall e h, handlers e = Some h -> emits P h) ->
  (forall a, emits P (k a)) -> emits P (try_ c handlers k).
Proof.
  intros Hc Hh Hk m. unfold try_, continue.
  destruct (result (c m)) eqn:E; cbn.
  - apply Forall_app. split; [apply Hc|apply Hk].
  - destruct (handlers e) eqn:Eh; cbn; [|apply Hc].
    apply Forall_app. split; [apply Hc|]. now apply (Hh _ _ Eh).
Qed.

Lemma emits_call ev answer : P ev -> emits P (call ev answer).
Proof. intros H m. cbn. now repeat constructor. Qed.

Lemma emits_print line : P (EPrint line) -> emits P (print line).
Proof. apply emits_call. Qed.

Lemma emits_call_value {A} ev (answer : exn + A) :
  P ev -> emits P (call_value ev answer).
Proof. intros H m. cbn. now repeat constructor. Qed.

Lemma emits_assign g : emits P (assign g).
Proof. intros m. constructor. Qed.

Lemma emits_get_self : emits P get_self.
Proof. intros m. constructor. Qed.

Lemma emits_setenv k v : emits P (setenv k v).
Proof. intros m. constructor. Qed.

Lemma emits_lift {A} (r : exn + A) : emits P (lift r).
Proof. destruct r; intros m; constructor. Qed.

Lemma emits_assert cond msg : emits P (py_assert cond msg).
Proof. destruct cond; intros m; constructor. Qed.

Lemma emits_mret {A} (a : A) : emits P (mret a).
Proof. intros m. constructor. Qed.

Lemma emits_raise {A} e : emits P (@raise A e).
Proof. intros m. constructor. Qed.

Lemma emits_if {A} (b : bool) (c1 c2 : M A) :
  emits P c1 -> emits P c2 -> emits P (if b then c1 else c2).
Proof. now destruct b. Qed.

End Emits.

Create HintDb emits discriminated.

#[local] Hint Resolve emits_bind emits_assign emits_get_self emits_setenv
  emits_lift emits_assert emits_mret emits_raise emits_if : emits.

#[local] Hint Extern 1 (emits _ (call _ _)) =>
  apply emits_call; cbn; auto : emits.
#[local] Hint Extern 1 (emits _ (print _)) =>
  apply emits_print; cbn; auto : emits.
#[local] Hint Extern 1 (emits _ (call_value _ _)) =>
  apply emits_call_value; cbn; auto : emits.
#[local] Hint Extern 2 (emits _ (try_ _ _ _)) =>
  apply emits_try;
  [ | let e := fresh in let h := fresh in let E := fresh in
      intros e h E;
      repeat match type of E with
             | (if ?b then _ else _) = _ => destruct b
             end;
      inversion E; subst h
    | intros ] : emits.

(** ** Runs that differ in a value nobody reads *)

Section SameEffect.

Context {A B : Type}.

Lemma bind_cong (c : M A) (k1 k2 : A -> M B) m :
  (forall a m', k1 a m' = k2 a m') -> (c ≫= k1) m = (c ≫= k2) m.
Proof.
  intros H. unfold mbind, M_bind, bind, continue.
  destruct (result (c m)); [now rewrite H|reflexivity].
Qed.

Lemma same_effect_bind (c : M A) (k1 k2 : A -> M B) m :
  (forall a m', same_effect (k1 a m') (k2 a m')) ->
  same_effect ((c ≫= k1) m) ((c ≫= k2) m).
Proof.
  intros H. unfold mbind, M_bind, bind, continue.
  destruct (result (c m)) as [a|e]; cbn.
  - destruct (H a (final (c m))) as (Hf & He & Hr).
    unfold same_effect; cbn. now rewrite Hf, He.
  - now unfold same_effect.
Qed.

Lemma same_effect_bind_both (c1 c2 : M A) (k1 k2 : A -> M B) m :
  same_effect (c1 m) (c2 m) ->
  (forall a1 a2 m', same_effect (k1 a1 m') (k2 a2 m')) ->
  same_effect ((c1 ≫= k1) m) ((c2 ≫= k2) m).
Proof.
  intros (Hf & He & Hr) Hk. unfold mbind, M_bind, bind, continue.
  destruct (result (c1 m)) as [a1|e1], (result (c2 m)) as [a2|e2];
    try contradiction; cbn.
  - destruct (Hk a1 a2 (final (c1 m))) as (Hf' & He' & Hr').
    unfold same_effect; cbn. now rewrite <- Hf, <- He, Hf', He'.
  - now unfold same_effect.
Qed.

(** A continuation that ignores the value cannot tell the two apart. *)
Lemma bind_same_effect (c1 c2 : M A) (k1 k2 : M B) m :
  same_effect (c1 m) (c2 m) -> (forall m', k1 m' = k2 m') ->
  (c1 ≫= fun _ => k1) m = (c2 ≫= fun _ => k2) m.
Proof.
  intros (Hf & He & Hr) Hk. unfold mbind, M_bind, bind, continue.
  destruct (result (c1 m)), (result (c2 m)); try contradiction.
  - now rewrite Hf, He, Hk.
  - now rewrite Hf, He, Hr.
Qed.

End SameEffect.

(** * Construction *)

Section Construction.

Variables (w : World) (env : gmap string string).
Variables (test_path results_gcs_dir : string) (function : option string).
Variables (host target_image_prefix namespace : string).

Let o := new_SampleTest w env test_path results_gcs_dir function host
           target_image_prefix namespace.

(** What [__init__] leaves in the object when it returns. *)
Lemma init_attributes :
  result o = Ok tt ->
  _test_name (self (final o)) = None /\
  _test_path (self (final o)) = test_path /\
  _is_notebook (self (final o)) = None /\
  _sample_test_result (self (final o)) = "junit_SampleNoneOutput.xml" /\
  _sample_test_output (self (final o)) = results_gcs_dir.
Proof.
  subst o. unfold new_SampleTest.
  wp_start (SampleTest.__init__ w test_path results_gcs_dir function host
              target_image_prefix namespace)
           {| self := blank SampleTestK; environ := env |}.
  wp_go; intros; try discriminate; repeat split; reflexivity.
Qed.

(** With a host given, [__init__] makes no call but [print], and returns. *)
Lemma init_with_host :
  host <> "" ->
  result o = Ok tt /\ _host (self (final o)) = host /\
  events o
  = [EPrint ("KFP API healthz endpoint is: " ++ host ++ "/apis/v1beta1/healthz")].
Proof.
  intros Hhost. apply String.eqb_neq in Hhost. subst o. unfold new_SampleTest.
  wp_start (SampleTest.__init__ w test_path results_gcs_dir function host
              target_image_prefix namespace)
           {| self := blank SampleTestK; environ := env |}.
  wp_go; try congruence; repeat split; reflexivity.
Qed.

End Construction.

(** C6.  Host resolution in [SampleTest.__init__].  With an empty host the
    in-cluster credentials are tried first and the kube-config credentials
    only after those failed; when either loads, the host becomes
    ["http://localhost:8888"]; when both fail (the second with an error,
    that is an instance of [Exception]) construction raises [RuntimeError]
    chained to that error, and the log shows each loader called once and
    nothing after: no retry.  With a non-empty host no credentials are
    loaded at all. *)
Theorem host_resolution
    (w : World) (env : gmap string string)
    (test_path results_gcs_dir : string) (function : option string)
    (host target_image_prefix namespace : string) :
  let o := new_SampleTest w env test_path results_gcs_dir function host
             target_image_prefix namespace in
  let healthz h :=
    EPrint ("KFP API healthz endpoint is: " ++ h ++ "/apis/v1beta1/healthz") in
  let localhost := "http://localhost:8888" in
  (host <> "" ->
     result o = Ok tt /\ _host (self (final o)) = host /\
     events o = [healthz host]) /\
  (host = "" ->
     (kubernetes_load_incluster_config w = None ->
        result o = Ok tt /\ _host (self (final o)) = localhost /\
        events o = [ELoadInclusterConfig; healthz localhost]) /\
     (forall e1,
        kubernetes_load_incluster_config w = Some e1 ->
        kubernetes_load_kube_config w = None ->
        result o = Ok tt /\ _host (self (final o)) = localhost /\
        events o = [ELoadInclusterConfig; ELoadKubeConfig; healthz localhost]) /\
     (forall e1 e2,
        kubernetes_load_incluster_config w = Some e1 ->
        kubernetes_load_kube_config w = Some e2 ->
        isinstance e2 Exception = true ->
        result o
        = Raise (Exn RuntimeError "Failed to get inverse proxy hostname"
                   (Some e2)) /\
        events o = [ELoadInclusterConfig; ELoadKubeConfig])).
Proof.
  intros o healthz localhost. split.
  - apply init_with_host.
  - intros ->. subst o healthz localhost. unfold new_SampleTest.
    repeat split; intros;
      wp_start (SampleTest.__init__ w test_path results_gcs_dir function ""
                  target_image_prefix namespace)
               {| self := blank SampleTestK; environ := env |};
      wp_go; solve [congruence | discriminate | reflexivity].
Qed.

(** Outside a cluster and without a kube-config: both loaders raise
    [ConfigException], and construction fails after one call to each. *)
Lemma host_resolution_witness :
  let not_found := Exn ConfigException "Service host/port is not set." None in
  let invalid := Exn ConfigException "Invalid kube-config file." None in
  let w := set_kubernetes_load_incluster_config (Some not_found)
             (set_kubernetes_load_kube_config (Some invalid) quiet_world) in
  let o := new_SampleTest w ∅ "samples/core/exit_handler/exit_handler.py"
             "gs://results" None "" "" "kubeflow" in
  result o
  = Raise (Exn RuntimeError "Failed to get inverse proxy hostname"
             (Some invalid)) /\
  events o = [ELoadInclusterConfig; ELoadKubeConfig].
Proof.
  intros not_found invalid w o.
  destruct (host_resolution w ∅ "samples/core/exit_handler/exit_handler.py"
              "gs://results" None "" "" "kubeflow") as [_ H].
  destruct (H eq_refl) as (_ & _ & H3).
  apply (H3 not_found invalid); reflexivity.
Defined.

(** * Compilation *)

(** ** Facts about [_compile] *)

(** Boolean comparisons of strings, as propositions. *)
Ltac eqb_to_prop :=
  repeat match goal with
         | H : String.eqb _ _ = true |- _ => apply String.eqb_eq in H
         | H : String.eqb _ _ = false |- _ => apply String.eqb_neq in H
         end.

(** [_compile] and what it keeps. *)
Section CompileKeeps.

Variable w : World.

Lemma read_config_keeps {X} (f : self_t -> X) path :
  keeps f (SampleTest.read_config w path).
Proof. unfold SampleTest.read_config. auto 10 with keeps. Qed.

(** [_compile] assigns four attributes only: [_test_name], [_is_notebook],
    [_run_pipeline] and [_compiled_path]. *)
Lemma compile_keeps_sample_test_result :
  keeps _sample_test_result (SampleTest._compile w).
Proof.
  pose proof (read_config_keeps _sample_test_result).
  unfold SampleTest._compile, SampleTest.check_test_path,
    SampleTest.determine_kind, SampleTest.load_default_config,
    SampleTest.prepare_notebook, SampleTest.compile_pipeline.
  auto 30 with keeps.
Qed.

End CompileKeeps.

(** The name of the test is known once [_compile] has returned. *)
Lemma compile_sets_test_name w m :
  result (SampleTest._compile w m) = Ok tt ->
  _test_name (self (final (SampleTest._compile w m)))
  = Some (SampleTest.test_name_of (_test_path (self m))).
Proof.
  wp_start (SampleTest._compile w) m.
  wp_go; intros; try discriminate; reflexivity.
Qed.

(** The outcome of reading a configuration, in terms of the four answers
    it depends on. *)
Lemma read_config_result w path m :
  result (SampleTest.read_config w path m)
  = match builtin_open w path with
    | Some e => Raise e
    | None =>
        match yaml_safe_load w path with
        | inl e => Raise e
        | inr raw_args =>
            match yamale_make_data w path with
            | Some e => Raise e
            | None =>
                match yamale_validate w (SCHEMA_CONFIG w) path with
                | Some e => Raise e
                | None => Ok raw_args
                end
            end
        end
    end.
Proof.
  wp_start (SampleTest.read_config w path) m.
  wp_go; reflexivity.
Qed.

(** Use the answers found along a path in a hypothesis about a whole
    program. *)
Ltac answers_in H :=
  repeat match goal with
         | E : ?x = _ |- _ =>
             tryif constr_eq E H then fail else
             lazymatch type of H with
             | context [x] => rewrite E in H
             end
         end.

(** Membership in an explicit list of events. *)
Ltac not_in_log H :=
  repeat (apply elem_of_cons in H as [H | H]; [discriminate H|]);
  apply elem_of_nil in H; contradiction.

Lemma compile_emits_before_run w : emits before_run (SampleTest._compile w).
Proof.
  unfold SampleTest._compile, SampleTest.check_test_path,
    SampleTest.determine_kind, SampleTest.load_default_config,
    SampleTest.prepare_notebook, SampleTest.compile_pipeline,
    SampleTest.read_config, before_run.
  auto 30 with emits.
Qed.

Lemma compile_keeps_environ w m :
  environ (final (SampleTest._compile w m)) = environ m.
Proof.
  wp_start (SampleTest._compile w) m.
  wp_go; reflexivity.
Qed.

Lemma compile_args_command test_path compiled_path function :
  compiler_command (SampleTest.compile_args test_path compiled_path function)
  = true.
Proof. now destruct function. Qed.

(** Refuting that an explicit log holds a compiler call. *)
Ltac no_compiler_call H :=
  repeat (apply Exists_cons in H as [H | H]; [discriminate H|]);
  apply Exists_nil in H; contradiction.

(** When the compiler exits with a non-zero code, [_compile] raises; if it
    got as far as calling the compiler, what it raises is the
    [AssertionError] of line 177. *)
Lemma compile_aborts_on_compiler_failure w m return_code :
  (forall args, compiler_command args = true ->
                subprocess_call w args = inr return_code) ->
  return_code <> 0%Z ->
  let c := SampleTest._compile w m in
  aborted c /\
  (Exists (fun ev => compiler_call ev = true) (events c) ->
   result c = Raise (Exn AssertionError "" None)).
Proof.
  intros H Hne c. subst c.
  wp_start (SampleTest._compile w) m.
  wp_go; unfold aborted; simp_state;
    repeat match goal with
           | E : subprocess_call w (SampleTest.compile_args ?a ?b ?c) = _
             |- _ =>
               rewrite (H _ (compile_args_command a b c)) in E;
               inversion E; subst; clear E
           | |- context [(?a =? ?b)%Z] => destruct (Z.eqb_spec a b)
           end;
    try congruence;
    (split; [eexists; reflexivity|]);
    intros Hex; first [ reflexivity | no_compiler_call Hex ].
Qed.

(** The assertion of line 89: a test path that is not a file stops
    [_compile] at once, before its name is even looked at. *)
Lemma compile_refuses_non_file w m :
  os_path_isfile w (_test_path (self m)) = false ->
  SampleTest._compile w m
  = {| result :=
         Raise (Exn AssertionError
                  ("Specified test path is not a valid file: "
                   ++ _test_path (self m)) None);
       final := m; events := [] |}.
Proof.
  intros H. wp_start (SampleTest._compile w) m.
  wp_go; first [ congruence | reflexivity ].
Qed.

(** C3.  The extension of the test path decides the kind of test, in one
    of exactly three ways: [.py] is a script test ([_is_notebook] is
    [False]), [.ipynb] is a notebook test ([_is_notebook] is [True]), and
    every other extension raises [RuntimeError] with a message that quotes
    the extension.  This holds of lines 92-101 for every test path, and of
    [_compile] as a whole for every test path that passed the assertion of
    line 89 (the path is a file): no later statement assigns
    [_is_notebook], and the error is raised before any call is made. *)
Theorem extension_decides_kind (w : World) (m : mem) :
  let ext_name := SampleTest.ext_name_of (_test_path (self m)) in
  let unrecognized :=
    Exn RuntimeError
      ("Unrecognized test path file extension: '" ++ ext_name ++ "'") None in
  let kind := SampleTest.determine_kind m in
  let o := SampleTest._compile w m in
  ((ext_name = ".py" /\ result kind = Ok tt /\
    _is_notebook (self (final kind)) = Some false) \/
   (ext_name = ".ipynb" /\ result kind = Ok tt /\
    _is_notebook (self (final kind)) = Some true) \/
   (ext_name <> ".py" /\ ext_name <> ".ipynb" /\
    result kind = Raise unrecognized)) /\
  (os_path_isfile w (_test_path (self m)) = true ->
   (ext_name = ".py" -> _is_notebook (self (final o)) = Some false) /\
   (ext_name = ".ipynb" -> _is_notebook (self (final o)) = Some true) /\
   (ext_name <> ".py" -> ext_name <> ".ipynb" ->
    result o = Raise unrecognized /\ events o = [])).
Proof.
  intros ext_name unrecognized kind o. subst ext_name unrecognized kind o.
  split.
  - wp_start SampleTest.determine_kind m.
    wp_go; eqb_to_prop.
    + left. now repeat split.
    + right; left. now repeat split.
    + right; right. now repeat split.
  - intros Hfile.
    wp_start (SampleTest._compile w) m.
    wp_go; eqb_to_prop; try congruence;
      (repeat split; intros; solve [reflexivity | congruence]).
Qed.

(** A script and a notebook that exist, and a shell script that exists
    too. *)
Lemma extension_decides_kind_witness :
  _is_notebook
    (self (final (SampleTest._compile quiet_world
                    (sample_test "samples/core/exit_handler/exit_handler.py"))))
  = Some false /\
  _is_notebook
    (self (final (SampleTest._compile quiet_world
                    (sample_test "samples/core/lightweight_component/lightweight_component.ipynb"))))
  = Some true /\
  result (SampleTest._compile quiet_world (sample_test "test/run.sh"))
  = Raise (Exn RuntimeError "Unrecognized test path file extension: '.sh'"
             None).
Proof.
  split; [|split].
  - apply (extension_decides_kind quiet_world
             (sample_test "samples/core/exit_handler/exit_handler.py"));
      reflexivity.
  - apply (extension_decides_kind quiet_world
             (sample_test "samples/core/lightweight_component/lightweight_component.ipynb"));
      reflexivity.
  - apply (extension_decides_kind quiet_world (sample_test "test/run.sh"));
      [reflexivity | discriminate | discriminate].
Defined.

(** C4.  When loading or validating the default configuration fails (the
    [try] body of lines 106-111 raises), [_compile] raises, and it has made
    no compilation attempt: papermill was not called and no subprocess was
    started.  If the load was reached at all, the exception raised is
    [RuntimeError] for a YAML error, [FileExistsError] for an OS error, and
    the original exception otherwise (a validation error is a
    [ValueError]). *)
Theorem default_config_failure_precedes_compilation
    (w : World) (m : mem) (e : exn) :
  raises (SampleTest.read_config w (DEFAULT_CONFIG w)) e ->
  let o := SampleTest._compile w m in
  let fatal :=
    if isinstance e YAMLError then
      Exn RuntimeError ("Illegal default config:" ++ str_of e) None
    else if isinstance e OSError then
      Exn FileExistsError ("Default config not found:" ++ str_of e) None
    else e in
  aborted o /\
  Forall (fun ev => compilation_attempt ev = false) (events o) /\
  (EOpen (DEFAULT_CONFIG w) ∈ events o -> result o = Raise fatal).
Proof.
  intros H o fatal. subst o fatal.
  specialize (H m). rewrite read_config_result in H.
  wp_start (SampleTest._compile w) m.
  wp_go; answers_in H; try discriminate H;
    try (injection H as ->);
    (split; [eexists; reflexivity|]);
    (split; [repeat constructor|]);
    intros Hin; try not_in_log Hin;
    repeat match goal with E : isinstance _ _ = _ |- _ => rewrite E end;
    reflexivity.
Qed.

(** The default configuration does not satisfy the schema. *)
Lemma default_config_failure_precedes_compilation_witness :
  let invalid := Exn YamaleError "run_pipeline: 'yes' is not a bool." None in
  let w := set_yamale_validate (fun _ _ => Some invalid) quiet_world in
  let o := SampleTest._compile w
             (sample_test "samples/core/exit_handler/exit_handler.py") in
  result o = Raise invalid /\
  Forall (fun ev => compilation_attempt ev = false) (events o).
Proof.
  intros invalid w o.
  destruct (default_config_failure_precedes_compilation w
              (sample_test "samples/core/exit_handler/exit_handler.py")
              invalid) as (_ & Hlog & Hexn).
  - intros m. reflexivity.
  - split; [|exact Hlog]. apply Hexn. vm_compute.
    apply list_elem_of_further, list_elem_of_here.
Defined.

(** Finding an event in an explicit log. *)
Ltac in_log :=
  first [ apply list_elem_of_here | apply list_elem_of_further; in_log ].

(** C1, as amended.  For a notebook test whose default configuration has
    loaded, what a failing load of the per-test configuration does depends
    on the exception.  A file that cannot be opened ([OSError]) or parsed
    ([yaml.YAMLError]) does not stop [_compile]: a line saying so is
    printed, the parameters stay the defaults (papermill gets the empty
    dictionary, [_run_pipeline] keeps the value of the default
    configuration), the notebook is executed, and when papermill and the
    conversion return the compilation is started.  Any other exception --
    the [ValueError] of a failed schema validation among them -- is caught
    by neither [except] clause: [_compile] raises it, and neither papermill
    nor a subprocess is called. *)
Theorem test_config_failure_falls_back
    (w : World) (m : mem) (raw_args run_pipeline : pyval) (e : exn) :
  let test_path := _test_path (self m) in
  let config_file :=
    SampleTest.config_file_of w (Some (SampleTest.test_name_of test_path)) in
  let warning :=
    if isinstance e YAMLError then
      "No legit yaml config file found, use default args:" ++ str_of e
    else
      "Config file with the same name not found, use default args:"
      ++ str_of e in
  let o := SampleTest._compile w m in
  os_path_isfile w test_path = true ->
  SampleTest.ext_name_of test_path = ".ipynb" ->
  yamale_make_schema w (SCHEMA_CONFIG w) = None ->
  (forall m', result (SampleTest.read_config w (DEFAULT_CONFIG w) m')
              = Ok raw_args) ->
  getitem raw_args "run_pipeline" = inr run_pipeline ->
  raises (SampleTest.read_config w config_file) e ->
  if isinstance e YAMLError || isinstance e OSError then
    EPrint warning ∈ events o /\
    EExecuteNotebook test_path test_path ∅ true ∈ events o /\
    _run_pipeline (self (final o)) = Some run_pipeline /\
    (pm_execute_notebook w test_path ∅ = None ->
     forall return_code,
       subprocess_call w (SampleTest.nbconvert_args test_path)
       = inr return_code ->
       ENamedTemporaryFile ".yaml" ∈ events o)
  else
    result o = Raise e /\
    Forall (fun ev => compilation_attempt ev = false) (events o).
Proof.
  intros test_path config_file warning o Hfile Hext Hschema Hdefault Hrun
    Htest.
  subst test_path config_file warning o.
  specialize (Hdefault m). rewrite read_config_result in Hdefault.
  specialize (Htest m). rewrite read_config_result in Htest.
  destruct (isinstance e YAMLError || isinstance e OSError) eqn:Hkind;
    wp_start (SampleTest._compile w) m;
    wp_go; eqb_to_prop; try congruence;
    answers_in Hdefault; try discriminate Hdefault;
    try (injection Hdefault as ->);
    answers_in Htest; try discriminate Htest;
    try (injection Htest as ->);
    try congruence;
    repeat match goal with
           | E : isinstance _ _ = _ |- _ =>
               first [ rewrite E in Hkind | rewrite E ]
           end;
    try discriminate Hkind.
  all: first
    [ split; [reflexivity|repeat constructor]
    | (split; [in_log|]); (split; [in_log|]); (split; [congruence|]);
      intros; first [ congruence | in_log ] ].
Qed.

(** A notebook without a per-test configuration file. *)
Lemma test_config_failure_falls_back_witness :
  let o := SampleTest._compile world_without_test_config
             (sample_test notebook_path) in
  EPrint ("Config file with the same name not found, use default args:"
          ++ str_of missing_config) ∈ events o /\
  EExecuteNotebook notebook_path notebook_path ∅ true ∈ events o /\
  _run_pipeline (self (final o)) = Some (PBool true).
Proof.
  intros o.
  destruct (test_config_failure_falls_back world_without_test_config
              (sample_test notebook_path)
              (PDict {[ "run_pipeline" := PBool true ]}) (PBool true)
              missing_config
              eq_refl eq_refl eq_refl (fun _ => eq_refl) eq_refl
              (fun _ => eq_refl))
    as (H1 & H2 & H3 & _).
  split; [exact H1|]. split; [exact H2|exact H3].
Defined.

(** C1, as stated, fails: a per-test configuration that does not satisfy
    the schema makes [yamale.validate] raise a [ValueError], which neither
    [except] clause of lines 133-139 accepts.  [_compile] ends with that
    exception; nothing is printed and papermill is not called. *)
Lemma schema_invalid_test_config_aborts :
  let w := world_with_invalid_test_config in
  let m := sample_test notebook_path in
  let o := SampleTest._compile w m in
  raises (SampleTest.read_config w
            (SampleTest.config_file_of w (Some "lightweight_component")))
         invalid_config /\
  result o = Raise invalid_config /\
  Forall (fun ev => compilation_attempt ev = false) (events o) /\
  Forall (fun ev => match ev with EPrint _ => False | _ => True end)
    (events o).
Proof.
  split; [intros m'; reflexivity|].
  split; [reflexivity|].
  split; vm_compute; repeat constructor.
Qed.

(** C2.  When the compiler subprocess exits with a non-zero return code,
    [_compile] raises -- the [AssertionError] of line 177 whenever the
    compiler was started at all -- and [run_test] ends right there, with
    the exception and the calls of [_compile]: no image injection, no
    change of directory, no checker, and [os.environ] untouched. *)
Theorem compiler_failure_stops_before_run
    (w : World) (m : mem) (return_code : Z) :
  (forall args, compiler_command args = true ->
                subprocess_call w args = inr return_code) ->
  return_code <> 0%Z ->
  let c := SampleTest._compile w m in
  let o := run_test w m in
  aborted c /\
  (Exists (fun ev => compiler_call ev = true) (events c) ->
   result c = Raise (Exn AssertionError "" None)) /\
  result o = result c /\
  events o = events c /\
  Forall (fun ev => run_phase ev = false) (events o) /\
  environ (final o) = environ m.
Proof.
  intros H Hne c o.
  destruct (compile_aborts_on_compiler_failure w m return_code H Hne)
    as [[e He] Hassert].
  fold c in He, Hassert.
  assert (Ho : o = {| result := Raise e; final := final c; events := events c |}).
  { subst o c. unfold run_test. now rewrite (bind_raise _ _ _ _ He). }
  split; [now exists e|]. split; [exact Hassert|].
  rewrite Ho, He. cbn. repeat split.
  - eapply Forall_impl; [apply compile_emits_before_run|].
    now intros ev [? _].
  - apply compile_keeps_environ.
Qed.

(** The compiler rejects the script: exit code 1. *)
Lemma compiler_failure_stops_before_run_witness :
  let w := set_subprocess_call (fun _ => inr 1%Z) quiet_world in
  let o := run_test w (sample_test script_path) in
  result o = Raise (Exn AssertionError "" None) /\
  Forall (fun ev => run_phase ev = false) (events o).
Proof.
  intros w o.
  destruct (compiler_failure_stops_before_run w (sample_test script_path) 1%Z)
    as (_ & Hassert & Hres & Hev & Hlog & _).
  - intros args _. reflexivity.
  - discriminate.
  - split; [|exact Hlog].
    fold o in Hres. rewrite Hres. apply Hassert.
    vm_compute. do 6 apply Exists_cons_tl. now apply Exists_cons_hd.
Defined.

(** The two command lines differ in their first word. *)
Lemma compile_args_not_nbconvert test_path compiled_path function path :
  SampleTest.compile_args test_path compiled_path function
  <> SampleTest.nbconvert_args path.
Proof. now destruct function. Qed.

(** The compiler's answer is not the conversion's. *)
Lemma compile_pipeline_unaffected rc path w m :
  SampleTest.compile_pipeline (with_nbconvert_exit rc path w) m
  = SampleTest.compile_pipeline w m.
Proof.
  unfold SampleTest.compile_pipeline.
  apply bind_cong. intros name m1.
  apply bind_cong. intros [] m2.
  apply bind_cong. intros s m3.
  cbn [with_nbconvert_exit set_subprocess_call subprocess_call].
  destruct (decide _) as [E|_]; [|reflexivity].
  destruct (compile_args_not_nbconvert _ _ _ _ E).
Qed.

(** The conversion is the last statement of the notebook block; its exit
    code is the value of the block and has no other effect. *)
Lemma prepare_notebook_same_effect rc1 rc2 path w m :
  same_effect
    (SampleTest.prepare_notebook (with_nbconvert_exit rc1 path w) m)
    (SampleTest.prepare_notebook (with_nbconvert_exit rc2 path w) m).
Proof.
  unfold SampleTest.prepare_notebook.
  apply same_effect_bind. intros s m1. cbn zeta.
  apply same_effect_bind. intros nb_params m2.
  apply same_effect_bind. intros s' m3.
  apply same_effect_bind. intros [] m4.
  cbn [with_nbconvert_exit set_subprocess_call subprocess_call].
  unfold same_effect, call_value. cbn.
  destruct (decide _); [easy|].
  now destruct (subprocess_call w _).
Qed.

(** C9.  The return code of [jupyter nbconvert] is never looked at: the
    variable that receives it is assigned again by the compiler call before
    the only assertion on it.  So two worlds that differ in nothing but the
    exit code of the conversion give the same outcome of [_compile]: the
    same result, the same object, the same calls.  In particular a
    conversion that exits with an error code changes nothing. *)
Theorem conversion_exit_code_is_ignored
    (w : World) (m : mem) (rc1 rc2 : Z) :
  SampleTest._compile (with_nbconvert_exit rc1 (_test_path (self m)) w) m
  = SampleTest._compile (with_nbconvert_exit rc2 (_test_path (self m)) w) m.
Proof.
  generalize (_test_path (self m)). intros path.
  unfold SampleTest._compile.
  apply bind_cong. intros [] m1.
  apply bind_cong. intros [] m2.
  apply bind_cong. intros [] m3.
  apply bind_cong. intros s m4.
  apply bind_same_effect.
  - destruct (truthy (_is_notebook s)).
    + apply same_effect_bind_both.
      * apply prepare_notebook_same_effect.
      * intros a1 a2 m'. now unfold same_effect.
    + now unfold same_effect.
  - intros m'. now rewrite !compile_pipeline_unaffected.
Qed.

(** A notebook whose conversion exits with 1 compiles all the same. *)
Example failed_conversion_goes_unnoticed :
  let w := with_nbconvert_exit 1 notebook_path quiet_world in
  let o := SampleTest._compile w (sample_test notebook_path) in
  subprocess_call w (SampleTest.nbconvert_args notebook_path) = inr 1%Z /\
  ESubprocessCall (SampleTest.nbconvert_args notebook_path) ∈ events o /\
  result o = Ok tt.
Proof.
  repeat split. vm_compute. in_log.
Qed.

(** C10.  The junit result file name is computed in [__init__], where
    [_test_name] is still [None]: for every constructed [SampleTest],
    whatever the test path, it is ["junit_SampleNoneOutput.xml"].
    [_compile] later assigns the real test name and leaves the file name
    as it is. *)
Theorem junit_result_name_ignores_test_name
    (w : World) (env : gmap string string)
    (test_path results_gcs_dir : string) (function : option string)
    (host target_image_prefix namespace : string) :
  let o := new_SampleTest w env test_path results_gcs_dir function host
             target_image_prefix namespace in
  result o = Ok tt ->
  _test_name (self (final o)) = None /\
  _sample_test_result (self (final o)) = "junit_SampleNoneOutput.xml" /\
  forall w',
    let o' := SampleTest._compile w' (final o) in
    _sample_test_result (self (final o')) = "junit_SampleNoneOutput.xml" /\
    (result o' = Ok tt ->
     _test_name (self (final o')) = Some (SampleTest.test_name_of test_path)).
Proof.
  intros o Hok.
  destruct (init_attributes w env test_path results_gcs_dir function host
              target_image_prefix namespace Hok)
    as (Hname & Hpath & _ & Hres & _).
  fold o in Hname, Hpath, Hres.
  split; [exact Hname|]. split; [exact Hres|].
  intros w' o'. split.
  - subst o'. now rewrite compile_keeps_sample_test_result.
  - intros Hok'. subst o'. rewrite (compile_sets_test_name _ _ Hok').
    now rewrite Hpath.
Qed.

(** A script test is constructed, then compiled: the test is named
    [exit_handler], the result file is not. *)
Lemma junit_result_name_ignores_test_name_witness :
  let o := new_SampleTest quiet_world ∅
             "samples/core/exit_handler/exit_handler.py" "gs://results" None
             "http://ml-pipeline:8888" "" "kubeflow" in
  let o' := SampleTest._compile quiet_world (final o) in
  result o = Ok tt /\
  _sample_test_result (self (final o')) = "junit_SampleNoneOutput.xml" /\
  _test_name (self (final o')) = Some "exit_handler".
Proof.
  intros o o'.
  assert (Hok : result o = Ok tt) by reflexivity.
  split; [exact Hok|].
  destruct (junit_result_name_ignores_test_name quiet_world ∅
              "samples/core/exit_handler/exit_handler.py" "gs://results" None
              "http://ml-pipeline:8888" "" "kubeflow" Hok)
    as (_ & _ & H).
  destruct (H quiet_world) as [H1 H2].
  split; [exact H1|]. apply H2. reflexivity.
Defined.

(** * Image injection *)

(** The plain [_injection] does nothing. *)
Lemma sample_injection_is_noop w m :
  cls (self m) = SampleTestK ->
  _injection w m = {| result := Ok tt; final := m; events := [] |}.
Proof.
  intros H. wp_start (_injection w) m.
  wp_go; try congruence. reflexivity.
Qed.

(** The override calls [utils.file_injection] for every test name: once
    with the two base mappings, or -- for [xgboost_training_cm] -- with the
    three mappings, and then once more. *)
Lemma component_injection_calls w m :
  let s := self m in
  let file_in := ComponentTest.injection_input (_test_name s) in
  let file_out := ComponentTest.injection_output (_test_name s) in
  let o := ComponentTest._injection w m in
  (_test_name s <> Some "xgboost_training_cm" ->
   events o = [EFileInjection file_in file_out (ComponentTest.base_subs s)]) /\
  (_test_name s = Some "xgboost_training_cm" ->
   let call := EFileInjection file_in file_out (ComponentTest.xgboost_subs s) in
   events o
   = match utils_file_injection w file_in file_out
             (ComponentTest.xgboost_subs s) with
     | Some _ => [call]
     | None => [call; call]
     end).
Proof.
  intros s file_in file_out o. subst s file_in file_out o.
  split; intros Hname;
    wp_start (ComponentTest._injection w) m;
    wp_go;
    repeat match goal with
           | E : bool_decide _ = true |- _ => apply bool_decide_eq_true in E
           | E : bool_decide _ = false |- _ => apply bool_decide_eq_false in E
           end;
    try contradiction; try reflexivity.
Qed.

(** C5, where the code departs from it.  First, a component test is
    never constructed: [ComponentTest.__init__] calls the inherited
    [__init__] with the keyword [test_name], which is not a parameter of
    [SampleTest.__init__] (its first parameter is [test_path]), so the
    constructor raises [TypeError] before anything else happens and no
    substituted copy is produced.  Second, on a [ComponentTest] object as
    the constructor is meant to build it, for a test that needs no
    substitution ([exit_handler], not [xgboost_training_cm]: the [else]
    branch of line 260 says so and passes), the call of line 263 runs all
    the same: [run_test] calls [utils.file_injection] with the two base
    mappings, from [exit_handler.py.yaml] to [exit_handler.py.yaml.tmp].
    The input of that call is not the compiled artifact, which [_compile]
    wrote to the temporary path; and where the input does not exist the run
    stops in [_injection].  A plain sample test on the same path injects
    nothing. *)
Theorem component_test_injection_departs :
  (forall w env test_name results_gcs_dir gcp_image
          local_confusionmatrix_image local_roc_image target_image_prefix
          namespace,
     let o := new_ComponentTest w env test_name results_gcs_dir gcp_image
                local_confusionmatrix_image local_roc_image
                target_image_prefix namespace in
     result o
     = Raise (Exn TypeError
                "__init__() got an unexpected keyword argument 'test_name'"
                None) /\
     events o = []) /\
  let m := component_test script_path in
  let o := run_test quiet_world m in
  let s := self (final o) in
  _test_name s = Some "exit_handler" /\
  _compiled_path s = Some "/tmp/tmp8k2x1q.yaml" /\
  List.filter injection_call (events o)
  = [EFileInjection "exit_handler.py.yaml" "exit_handler.py.yaml.tmp"
       [(ComponentTest.confusion_matrix_pattern,
         "gcr.io/ml-pipeline-test/local-confusion-matrix:0f3a");
        (ComponentTest.roc_pattern, "gcr.io/ml-pipeline-test/local-roc:0f3a")]] /\
  result o = Ok tt /\
  (let o' := run_test world_without_injection_input m in
   result o' = Raise missing_config /\
   Forall (fun ev => run_phase ev = false) (events o')) /\
  List.filter injection_call
    (events (run_test quiet_world (sample_test script_path))) = [].
Proof.
  split; [intros; now split|].
  repeat split; vm_compute; repeat constructor.
Qed.

(** * The matcher and the scan *)

Module regex_facts.

Import Regex.

#[local] Open Scope list_scope.

Section Matcher.

Variable is_word : ascii -> bool.

#[local] Abbreviation matches := (matches is_word).
#[local] Abbreviation bt := (bt is_word).
#[local] Abbreviation plus_loop := (plus_loop is_word).
#[local] Abbreviation sound_on := (sound_on is_word).

Lemma bt_plus r s k : bt (Plus r) s k = plus_loop r k (length s) s.
Proof. reflexivity. Qed.

Lemma plus_loop_O r k s : plus_loop r k 0 s = bt r s k.
Proof. reflexivity. Qed.

Lemma plus_loop_S r k n s :
  plus_loop r k (S n) s
  = bt r s (fun s' =>
      if (length s' <? length s)%nat then
        match plus_loop r k n s' with
        | Some x => Some x
        | None => k s'
        end
      else k s').
Proof. reflexivity. Qed.

Lemma single_sound (r : regex) (test : ascii -> bool) :
  (forall a, test a = true -> matches r [a]) ->
  forall (s : text) (k : text -> option text) (x : text),
    match s with
    | a :: s' => if test a then k s' else None
    | [] => None
    end = Some x ->
    exists m rest, s = m ++ rest /\ matches r m /\ k rest = Some x.
Proof.
  intros Hr [|a s'] k x H; [discriminate|].
  destruct (test a) eqn:E; [|discriminate].
  exists [a], s'. auto.
Qed.

Lemma plus_loop_sound r :
  sound_on r ->
  forall k n s x,
    plus_loop r k n s = Some x ->
    exists m rest, s = m ++ rest /\ matches (Plus r) m /\ k rest = Some x.
Proof.
  intros IH k n. induction n as [|n IHn]; intros s x H.
  - rewrite plus_loop_O in H. apply IH in H as (m & rest & -> & Hm & Hk).
    exists m, rest. eauto using MPlusOne.
  - rewrite plus_loop_S in H. apply IH in H as (m & rest & -> & Hm & Hk).
    destruct (length rest <? length (m ++ rest))%nat.
    + destruct (plus_loop r k n rest) as [y|] eqn:E.
      * injection Hk as ->.
        apply IHn in E as (m' & rest' & -> & Hm' & Hk').
        exists (m ++ m'), rest'. rewrite app_assoc.
        eauto using MPlusMore.
      * exists m, rest. eauto using MPlusOne.
    + exists m, rest. eauto using MPlusOne.
Qed.

Theorem bt_sound r : sound_on r.
Proof.
  induction r as [c| |cs|r1 IH1 r2 IH2|r1 IH1 r2 IH2|r IH|r IH];
    intros s k x H.
  - apply (single_sound (Chr c) (fun a => Ascii.eqb a c)); [|exact H].
    intros a ->%Ascii.eqb_eq. constructor.
  - apply (single_sound WordChar is_word); [|exact H].
    now constructor.
  - apply (single_sound (CharSet cs) (fun a => existsb (Ascii.eqb a) cs));
      [|exact H].
    now constructor.
  - cbn in H. apply IH1 in H as (m1 & rest1 & -> & Hm1 & H).
    apply IH2 in H as (m2 & rest2 & -> & Hm2 & H).
    exists (m1 ++ m2), rest2. rewrite app_assoc. eauto using MCat.
  - cbn in H. destruct (bt r1 s k) as [y|] eqn:E.
    + injection H as ->. apply IH1 in E as (m & rest & -> & Hm & Hk).
      exists m, rest. eauto using MAltL.
    + apply IH2 in H as (m & rest & -> & Hm & Hk).
      exists m, rest. eauto using MAltR.
  - cbn in H. apply IH in H as (m & rest & -> & Hm & Hk).
    exists m, rest. eauto using MGroup.
  - rewrite bt_plus in H. now apply plus_loop_sound in H.
Qed.

(** A match attempt splits the text into the match and the rest, and with
    [must_advance] the match is not empty. *)
Lemma match_here_sound adv r s m rest :
  match_here is_word adv r s = Some (m, rest) ->
  s = m ++ rest /\ matches r m /\ (adv = true -> m <> []).
Proof.
  unfold match_here. intros H.
  destruct (Regex.bt _ _ _ _) as [x|] eqn:E; [|discriminate].
  injection H as <- <-.
  apply bt_sound in E as (m & rest & -> & Hm & Hk).
  destruct (adv && (length rest =? length (m ++ rest))%nat) eqn:Ea;
    [discriminate|].
  injection Hk as <-.
  rewrite length_app, Nat.add_sub, take_app_length.
  repeat split; [exact Hm|].
  intros -> ->. cbn in Ea. now rewrite Nat.eqb_refl in Ea.
Qed.

Lemma original_keep c ps : original (Keep c :: ps) = c :: original ps.
Proof. reflexivity. Qed.

Lemma original_replaced m ps :
  original (Replaced m :: ps) = m ++ original ps.
Proof. reflexivity. Qed.

(** The pieces of a scan, put together again, are the text scanned, and
    every replaced piece is a match of the pattern. *)
Theorem scan_sound r fuel s :
  (length s < fuel)%nat ->
  original (scan is_word fuel r s) = s /\
  Forall (fun p => match p with Keep _ => True | Replaced m => matches r m end)
    (scan is_word fuel r s).
Proof.
  revert s. induction fuel as [|fuel IH]; intros s Hlen; [lia|].
  assert (Hkeep :
    original (match s with
              | c :: s' => Keep c :: scan is_word fuel r s'
              | [] => []
              end) = s /\
    Forall (fun p => match p with Keep _ => True | Replaced m => matches r m end)
      (match s with
       | c :: s' => Keep c :: scan is_word fuel r s'
       | [] => []
       end)).
  { destruct s as [|c s']; [now split|].
    destruct (IH s') as [Ho Hf]; [cbn in Hlen; lia|].
    split; [now rewrite original_keep, Ho|now constructor]. }
  assert (Hstep : forall m rest,
    s = m ++ rest -> matches r m -> m <> [] ->
    original (Replaced m :: scan is_word fuel r rest) = s /\
    Forall (fun p => match p with Keep _ => True | Replaced m => matches r m end)
      (Replaced m :: scan is_word fuel r rest)).
  { intros m rest -> Hm Hne.
    destruct (IH rest) as [Ho Hf].
    { rewrite length_app in Hlen. destruct m; [congruence|cbn in Hlen; lia]. }
    split; [now rewrite original_replaced, Ho|now constructor]. }
  cbn [scan].
  destruct (match_here is_word false r s) as [[m rest]|] eqn:E; [|exact Hkeep].
  apply match_here_sound in E as (Hs & Hm & _).
  destruct m as [|a m].
  - destruct (match_here is_word true r s) as [[m' rest']|] eqn:E'.
    + apply match_here_sound in E' as (Hs' & Hm' & Hne).
      destruct (Hstep m' rest' Hs' Hm' (Hne eq_refl)) as [Ho Hf].
      split; [exact Ho|now constructor].
    + destruct Hkeep as [Ho Hf]. split; [exact Ho|now constructor].
  - now apply Hstep.
Qed.

(** ** The languages of the patterns *)

Lemma lit_app s1 s2 : lit (s1 ++ s2)%string = lit s1 ++ lit s2.
Proof.
  unfold lit. induction s1 as [|c s1 IH]; [reflexivity|].
  cbn. rewrite <- IH. reflexivity.
Qed.

(** A literal prefix matches itself and nothing else. *)
Lemma matches_lit_then s r m :
  matches (lit_then s r) m <-> exists t, m = lit s ++ t /\ matches r t.
Proof.
  unfold lit_then. revert m. induction s as [|c s IH]; intros m; cbn.
  - split; [intros H; now exists m|now intros (t & -> & H)].
  - split.
    + intros H. inversion H as [| | |r1 r2 m1 m2 H1 H2| | | | |]; subst.
      inversion H1; subst. apply IH in H2 as (t & -> & Ht).
      now exists t.
    + intros (t & -> & Ht).
      apply (MCat is_word (Chr c) _ [c] (lit s ++ t)); [constructor|].
      apply IH. now exists t.
Qed.

(** [r+] over a pattern whose matches are non-empty runs of characters
    of one class. *)
Lemma matches_plus_class r (P : ascii -> Prop) :
  (forall m, matches r m -> m <> [] /\ Forall P m) ->
  forall t, matches (Plus r) t -> t <> [] /\ Forall P t.
Proof.
  intros Hr t H. remember (Plus r) as R eqn:ER.
  induction H as [| | | | | | |r' m H _|r' m1 m2 H1 _ H2 IH2];
    try discriminate; injection ER as ->.
  - now apply Hr.
  - destruct (Hr _ H1) as [Hne1 Hall1], (IH2 eq_refl) as [_ Hall2].
    split; [|now apply Forall_app].
    destruct m1; [congruence|discriminate].
Qed.

Lemma class_matches_plus r (P : ascii -> Prop) :
  (forall a, P a -> matches r [a]) ->
  forall t, t <> [] -> Forall P t -> matches (Plus r) t.
Proof.
  intros Hr t. induction t as [|a t IH]; intros Hne Hall; [congruence|].
  apply Forall_cons in Hall as [Ha Hall].
  destruct t as [|b t].
  - apply MPlusOne. now apply Hr.
  - apply (MPlusMore is_word r [a] (b :: t)); [now apply Hr|].
    now apply IH.
Qed.

#[local] Abbreviation tag_ok := (fun a => tag_char is_word a = true).

Lemma word_is_tag_char a : is_word a = true -> tag_ok a.
Proof. unfold tag_char. now intros ->. Qed.

Lemma punct_is_tag_char a :
  existsb (Ascii.eqb a) (lit ".-") = true -> tag_ok a.
Proof. unfold tag_char. intros ->. apply orb_true_r. Qed.

(** [(\w+|[.-])+] and [(\w|[.-])+] both denote the non-empty strings of
    word characters, dots and hyphens. *)
Lemma tag_words_language t :
  matches ComponentTest.tag_words t <-> t <> [] /\ Forall tag_ok t.
Proof.
  split.
  - apply matches_plus_class. intros m H.
    inversion H as [| | | | | |r m' H'| |]; subst.
    inversion H' as [| | | |r1 r2 m' Hw|r1 r2 m' Hs| | |]; subst.
    + eapply matches_plus_class; [|exact Hw].
      intros m' Hm. inversion Hm; subst.
      split; [discriminate|]. repeat constructor. now apply word_is_tag_char.
    + inversion Hs; subst.
      split; [discriminate|]. repeat constructor. now apply punct_is_tag_char.
  - intros [Hne Hall]. revert Hne Hall. apply class_matches_plus.
    intros a Ha. apply MGroup. unfold tag_char in Ha.
    destruct (is_word a) eqn:Ew.
    + apply MAltL, MPlusOne. now constructor.
    + apply MAltR. now constructor.
Qed.

Lemma tag_chars_language t :
  matches ComponentTest.tag_chars t <-> t <> [] /\ Forall tag_ok t.
Proof.
  split.
  - apply matches_plus_class. intros m H.
    inversion H as [| | | | | |r m' H'| |]; subst.
    inversion H' as [| | | |r1 r2 m' Hw|r1 r2 m' Hs| | |]; subst.
    + inversion Hw; subst.
      split; [discriminate|]. repeat constructor. now apply word_is_tag_char.
    + inversion Hs; subst.
      split; [discriminate|]. repeat constructor. now apply punct_is_tag_char.
  - intros [Hne Hall]. revert Hne Hall. apply class_matches_plus.
    intros a Ha. apply MGroup. unfold tag_char in Ha.
    destruct (is_word a) eqn:Ew.
    + apply MAltL. now constructor.
    + apply MAltR. now constructor.
Qed.

(** A pattern made of an image name, a colon and one of the two tag
    patterns matches the references to that image, and only them. *)
Lemma image_pattern_language name tag m :
  (forall t, matches tag t <-> t <> [] /\ Forall tag_ok t) ->
  matches (lit_then (name ++ ":")%string tag) m
  <-> image_reference is_word name m.
Proof.
  intros Htag. rewrite matches_lit_then. unfold image_reference.
  setoid_rewrite lit_app. setoid_rewrite <- app_assoc.
  split; intros (t & -> & H); exists t; (split; [reflexivity|]);
    now apply Htag.
Qed.

End Matcher.

End regex_facts.

(** The three patterns of [_injection], with the image each one names. *)
Lemma injection_pattern_languages is_word m :
  (Regex.matches is_word ComponentTest.confusion_matrix_pattern m
   <-> image_reference is_word ComponentTest.confusion_matrix_image m) /\
  (Regex.matches is_word ComponentTest.roc_pattern m
   <-> image_reference is_word ComponentTest.roc_image m) /\
  (Regex.matches is_word ComponentTest.gcp_pattern m
   <-> image_reference is_word ComponentTest.gcp_image m).
Proof.
  repeat split;
    first [ apply regex_facts.image_pattern_language,
              regex_facts.tag_words_language
          | apply regex_facts.image_pattern_language,
              regex_facts.tag_chars_language ].
Qed.

(** The frame of one substitution: the scan cuts the text into kept
    characters and replaced segments, the result differs from the text in
    the replaced segments only, and each of them is a reference to the
    image. *)
Lemma substitution_frame is_word pattern name repl text :
  (forall m, Regex.matches is_word pattern m
             <-> image_reference is_word name m) ->
  let ps := Regex.scan is_word (S (length text)) pattern text in
  Regex.original ps = text /\
  Regex.re_sub is_word pattern repl text = Regex.rendered repl ps /\
  replaces_only is_word name ps.
Proof.
  intros Hlang ps.
  destruct (regex_facts.scan_sound is_word pattern (S (length text)) text)
    as [Ho Hf]; [lia|].
  split; [exact Ho|]. split; [reflexivity|].
  eapply Forall_impl; [exact Hf|].
  intros [c|m] H; [exact I|]. now apply Hlang.
Qed.

(** C7.  Each pattern of [ComponentTest._injection] matches exactly the
    references to one fixed image -- [gcr.io/ml-pipeline/...], a colon and
    a non-empty tag of word characters, dots and hyphens -- and nothing
    else.  Substituting with it cuts the text into characters that are
    kept and segments that are replaced: the text is the concatenation of
    the pieces, the result is the same concatenation with the replacement
    in place of each replaced segment, and every replaced segment is such
    a reference.  So all the text outside the references is unchanged.
    This holds for every mapping of [subs], whatever the class [\w]. *)
Theorem injection_patterns_match_image_references
    (is_word : ascii -> bool) (s : self_t) :
  Forall
    (fun sub =>
       exists name,
         name ∈ [ComponentTest.confusion_matrix_image;
                 ComponentTest.roc_image; ComponentTest.gcp_image] /\
         substitutes_image is_word name sub)
    (ComponentTest.xgboost_subs s).
Proof.
  assert (Hsub : forall name sub,
    (forall m, Regex.matches is_word (fst sub) m
               <-> image_reference is_word name m) ->
    substitutes_image is_word name sub).
  { intros name sub Hlang. split; [exact Hlang|]. intros text.
    eexists. now apply substitution_frame. }
  unfold ComponentTest.xgboost_subs, ComponentTest.base_subs.
  repeat apply Forall_cons_2; [ | | |apply Forall_nil_2].
  - exists ComponentTest.confusion_matrix_image. split; [in_log|].
    apply Hsub. intros m. apply injection_pattern_languages.
  - exists ComponentTest.roc_image. split; [in_log|].
    apply Hsub. intros m. apply injection_pattern_languages.
  - exists ComponentTest.gcp_image. split; [in_log|].
    apply Hsub. intros m. apply injection_pattern_languages.
Qed.

(** [utils.substitute] applies the mappings one after the other. *)
Lemma substitute_app is_word subs1 subs2 text :
  utils.substitute is_word (subs1 ++ subs2) text
  = utils.substitute is_word subs2 (utils.substitute is_word subs1 text).
Proof. apply fold_left_app. Qed.

Lemma substitute_xgboost is_word s text :
  utils.substitute is_word (ComponentTest.xgboost_subs s) text
  = Regex.re_sub is_word ComponentTest.gcp_pattern
      (Regex.lit (_dataproc_gcp_image s))
      (Regex.re_sub is_word ComponentTest.roc_pattern
         (Regex.lit (_local_roc_image s))
         (Regex.re_sub is_word ComponentTest.confusion_matrix_pattern
            (Regex.lit (_local_confusionmatrix_image s)) text)).
Proof. reflexivity. Qed.

(** A tagged reference is replaced and the text around it is kept; a
    reference without a tag is not matched. *)
Example substitute_tagged_reference :
  utils.substitute Regex.ascii_word
    (ComponentTest.xgboost_subs (self (component_test script_path)))
    (Regex.lit "  image: gcr.io/ml-pipeline/ml-pipeline-gcp:1.0.0-rc.3 # pinned")
  = Regex.lit "  image: gcr.io/ml-pipeline-test/ml-pipeline-gcp:0f3a # pinned".
Proof. vm_compute. reflexivity. Qed.

Example substitute_untagged_reference :
  utils.substitute Regex.ascii_word
    (ComponentTest.xgboost_subs (self (component_test script_path)))
    (Regex.lit "  image: gcr.io/ml-pipeline/ml-pipeline-gcp")
  = Regex.lit "  image: gcr.io/ml-pipeline/ml-pipeline-gcp".
Proof. vm_compute. reflexivity. Qed.

(** The file-level effect: the output file receives the substituted
    content, the input file stays as it was. *)
Example file_injection_writes_the_copy :
  let subs := ComponentTest.xgboost_subs (self (component_test script_path)) in
  let before := Regex.lit "image: gcr.io/ml-pipeline/ml-pipeline-gcp:1.7.0" in
  let after := Regex.lit "image: gcr.io/ml-pipeline-test/ml-pipeline-gcp:0f3a" in
  exists files,
    utils.file_injection Regex.ascii_word {[ "x.py.yaml" := before ]}
      "x.py.yaml" "x.py.yaml.tmp" subs = inr files /\
    files !! "x.py.yaml" = Some before /\
    files !! "x.py.yaml.tmp" = Some after.
Proof.
  eexists. split; [reflexivity|]. split; vm_compute; reflexivity.
Qed.

(** * The sub-DAG sample *)

Module subdag_facts.

Import subdag.

(** [set_caching_options] passes its argument through to the task it is
    called on, and touches no other task. *)
Lemma set_caching_options_lookup (ts : list PipelineTask) i t flag :
  ts !! i = Some t ->
  snd (set_caching_options i flag ts) !! i
  = Some {| component := component t; arguments := arguments t;
            enable_caching := flag |}.
Proof.
  intros H. cbn. rewrite list_lookup_alter_eq. now rewrite H.
Qed.

Lemma set_caching_options_other (ts : list PipelineTask) i j flag :
  i <> j -> snd (set_caching_options i flag ts) !! j = ts !! j.
Proof. intros H. cbn. now apply list_lookup_alter_ne. Qed.

Lemma add_task_caches (ts : list PipelineTask) name args :
  let '(i, ts') := add_task name args ts in
  enable_caching <$> ts' !! i = Some true.
Proof.
  cbn. rewrite lookup_app_r by lia. now rewrite Nat.sub_diag.
Qed.

End subdag_facts.

(** C8.  The sample disables result caching on exactly two steps, by
    calling [set_caching_options(False)] on them: the [inner_comp] task of
    [inner_pipeline] and the [outer_comp] task of [outer_pipeline].  The
    third step, the task that runs [inner_pipeline] inside
    [outer_pipeline], keeps caching on. *)
Theorem caching_disabled_on_two_steps :
  subdag.tasks_of subdag.inner_pipeline
  = [{| subdag.component := "inner_comp"; subdag.arguments := [];
        subdag.enable_caching := false |}] /\
  subdag.tasks_of subdag.outer_pipeline
  = [{| subdag.component := "inner_pipeline"; subdag.arguments := [];
        subdag.enable_caching := true |};
     {| subdag.component := "outer_comp";
        subdag.arguments := [("input", subdag.OutputOf 0)];
        subdag.enable_caching := false |}] /\
  map subdag.component (List.filter subdag.caching_disabled subdag.steps)
  = ["inner_comp"; "outer_comp"] /\
  length (List.filter subdag.caching_disabled subdag.steps) = 2 /\
  length subdag.steps = 3.
Proof. repeat split. Qed.

(** * More about [_compile] *)

(** [_compile] assigns four attributes; what does not depend on them is
    kept. *)
Lemma compile_assigns_only (w : World) {X} (f : self_t -> X) :
  (forall v s, f (with_test_name v s) = f s) ->
  (forall v s, f (with_is_notebook v s) = f s) ->
  (forall v s, f (with_run_pipeline v s) = f s) ->
  (forall v s, f (with_compiled_path v s) = f s) ->
  keeps f (SampleTest._compile w).
Proof.
  intros H1 H2 H3 H4.
  assert (Hr : forall path, keeps f (SampleTest.read_config w path))
    by (intros; apply read_config_keeps).
  unfold SampleTest._compile, SampleTest.check_test_path,
    SampleTest.determine_kind, SampleTest.load_default_config,
    SampleTest.prepare_notebook, SampleTest.compile_pipeline.
  repeat first
    [ apply keeps_bind | apply keeps_get_self | apply keeps_assert
    | apply keeps_if | apply keeps_mret | apply keeps_raise
    | apply keeps_call | apply keeps_call_value | apply keeps_lift
    | apply keeps_print | apply Hr
    | apply keeps_assign; solve [auto]
    | apply keeps_try;
      [ | let e := fresh in let h := fresh in let E := fresh in
          intros e h E;
          repeat match type of E with
                 | (if ?b then _ else _) = _ => destruct b
                 end;
          inversion E; subst h
        | intros ]
    | intros ].
Qed.

(** [_compile] assigns [_test_name], [_is_notebook], [_run_pipeline] and
    [_compiled_path], and nothing else: every other attribute, and
    [os.environ], is after [_compile] what it was before -- whether
    [_compile] returns or raises. *)
Theorem compile_frame (w : World) (m : mem) :
  let s := self m in
  let s' := self (final (SampleTest._compile w m)) in
  cls s' = cls s /\
  _test_path s' = _test_path s /\
  _results_gcs_dir s' = _results_gcs_dir s /\
  _function s' = _function s /\
  _target_image_prefix s' = _target_image_prefix s /\
  _namespace s' = _namespace s /\
  _host s' = _host s /\
  _sample_test_result s' = _sample_test_result s /\
  _sample_test_output s' = _sample_test_output s /\
  _local_confusionmatrix_image s' = _local_confusionmatrix_image s /\
  _local_roc_image s' = _local_roc_image s /\
  _dataproc_gcp_image s' = _dataproc_gcp_image s /\
  environ (final (SampleTest._compile w m)) = environ m.
Proof.
  cbv zeta.
  repeat split; try (apply compile_assigns_only; reflexivity).
  apply compile_keeps_environ.
Qed.


(** What a normal return of [_compile] guarantees: the path is a file with
    one of the two extensions; the object holds its base name, its kind,
    a [run_pipeline] setting and the name of the temporary file; and the
    last thing [_compile] did was to run the compiler on that path and
    that file -- with [--function] exactly when a function was named --
    which exited with 0. *)
Theorem compile_success (w : World) (m : mem) :
  let s := self m in
  let o := SampleTest._compile w m in
  let s' := self (final o) in
  let ext_name := SampleTest.ext_name_of (_test_path s) in
  result o = Ok tt ->
  os_path_isfile w (_test_path s) = true /\
  (ext_name = ".py" \/ ext_name = ".ipynb") /\
  _test_name s' = Some (SampleTest.test_name_of (_test_path s)) /\
  _is_notebook s' = Some (String.eqb ext_name ".ipynb") /\
  (exists run_pipeline, _run_pipeline s' = Some run_pipeline) /\
  exists compiled_path,
    let args :=
      SampleTest.compile_args (_test_path s) compiled_path (_function s) in
    tempfile_NamedTemporaryFile w ".yaml" = inr compiled_path /\
    _compiled_path s' = Some compiled_path /\
    subprocess_call w args = inr 0%Z /\
    last (events o) = Some (ESubprocessCall args).
Proof.
  intros s o s' ext_name. subst s o s' ext_name.
  wp_start (SampleTest._compile w) m.
  wp_go;
    repeat match goal with
           | |- context [(?a =? ?b)%Z] => destruct (Z.eqb_spec a b)
           end;
    intros Hok; try discriminate Hok; subst;
    repeat match goal with
           | E : String.eqb _ _ = _ |- _ => rewrite E
           end;
    eqb_to_prop.
  all: try match goal with
           | H : SampleTest.ext_name_of _ = ".py" |- _ => rewrite H
           end.
  all: repeat split; eauto 7.
Qed.

(** A script with a pipeline function named on the command line. *)
Lemma compile_success_witness :
  let m := sample_test script_path in
  let m := {| self := with_function (Some "exit_handler_pipeline") (self m);
              environ := environ m |} in
  let o := SampleTest._compile quiet_world m in
  _test_name (self (final o)) = Some "exit_handler" /\
  _is_notebook (self (final o)) = Some false /\
  last (events o)
  = Some (ESubprocessCall
            ["kfp"; "dsl"; "compile"; "--py"; script_path; "--output";
             "/tmp/tmp8k2x1q.yaml"; "--function"; "exit_handler_pipeline"]).
Proof.
  intros m0 m o.
  destruct (compile_success quiet_world m eq_refl)
    as (_ & _ & Hname & Hkind & _ & path & Htmp & _ & _ & Hlast).
  split; [exact Hname|]. split; [exact Hkind|].
  injection Htmp as <-. exact Hlast.
Defined.

(** For a script ([.py]) [_compile] never looks for a per-test
    configuration, never calls papermill, never converts anything and
    prints nothing: the only configuration it reads is the default one, and
    the only subprocess it starts is the compiler. *)
Theorem script_test_skips_notebook_steps (w : World) (m : mem) :
  SampleTest.ext_name_of (_test_path (self m)) = ".py" ->
  Forall (script_event w) (events (SampleTest._compile w m)).
Proof.
  intros Hext. apply String.eqb_eq in Hext.
  wp_start (SampleTest._compile w) m.
  wp_go; repeat constructor; apply compile_args_command.
Qed.

Lemma script_test_skips_notebook_steps_witness :
  Forall (script_event quiet_world)
    (events (SampleTest._compile quiet_world (sample_test script_path))).
Proof.
  apply (script_test_skips_notebook_steps quiet_world
           (sample_test script_path)).
  reflexivity.
Defined.
(** * More about the notebook steps *)

(** The four answers behind a known outcome of [read_config]. *)
Ltac config_answers H :=
  rewrite read_config_result in H;
  repeat match type of H with
         | context [match ?x with _ => _ end] =>
             let y := scrutinee x in destruct y eqn:?; try discriminate H
         end;
  injection H as H; try subst.

(** A symbolic run that also looks into the loaded configuration. *)
Ltac wp_go_config :=
  repeat (first [ progress cbn [in_keys getitem dict_update]
                | match goal with
                  | H : ?d !! ?k = _ |- context [?d !! ?k] => rewrite H
                  end
                | wp_step ];
          simp_state).

Ltac decided :=
  repeat match goal with
         | E : bool_decide _ = true |- _ => apply bool_decide_eq_true in E
         | E : bool_decide _ = false |- _ => apply bool_decide_eq_false in E
         | E : ?d !! ?k = _, H : context [?d !! ?k] |- _ => rewrite E in H
         | E : ?d !! ?k = _ |- context [?d !! ?k] => rewrite E
         | H : ¬ is_Some (Some _) |- _ => exfalso; apply H; eexists; reflexivity
         | H : is_Some None |- _ => exfalso; destruct H; discriminate
         end.

(** With a per-test configuration that loads to a mapping whose
    [notebook_params] is a mapping, papermill receives exactly those
    parameters, except that an [output] entry, if there is one, carries
    the results directory; without such an entry no [output] parameter is
    added.  Nothing is printed, and [run_pipeline] of the per-test
    configuration, if present, replaces the default one. *)
Theorem notebook_parameters (w : World) (m : mem)
    (config params : gmap string pyval) :
  let s := self m in
  let config_file := SampleTest.config_file_of w (_test_name s) in
  let o := SampleTest.prepare_notebook w m in
  (forall m', result (SampleTest.read_config w config_file m')
              = Ok (PDict config)) ->
  config !! "notebook_params" = Some (PDict params) ->
  let parameters :=
    if decide (is_Some (params !! "output"))
    then <["output" := PStr (_sample_test_output s)]> params
    else params in
  EExecuteNotebook (_test_path s) (_test_path s) parameters true ∈ events o /\
  Forall (fun ev => match ev with EPrint _ => False | _ => True end)
    (events o) /\
  _run_pipeline (self (final o))
  = match config !! "run_pipeline" with
    | Some v => Some v
    | None => _run_pipeline s
    end.
Proof.
  intros s config_file o Hconfig Hparams parameters.
  subst s config_file o parameters.
  specialize (Hconfig m). config_answers Hconfig.
  wp_start (SampleTest.prepare_notebook w) m.
  wp_go_config; decided.
  all: rewrite (right_id_L ∅ (∪) params).
  all: destruct (decide (is_Some (params !! "output"))); try contradiction.
  all: repeat match goal with
              | H : ¬ is_Some (?d !! ?k) |- _ =>
                  destruct (d !! k) eqn:?; [exfalso; apply H; eauto|clear H]
              end.
  all: split; [in_log|split; [repeat constructor|reflexivity]].
Qed.

(** The notebook of the quiet world: its configuration names an [output]
    and a [project]. *)
Lemma notebook_parameters_witness :
  let m := notebook_test in
  EExecuteNotebook notebook_path notebook_path
    {[ "output" := PStr "gs://results";
       "project" := PStr "ml-pipeline-test" ]} true
  ∈ events (SampleTest.prepare_notebook quiet_world m) /\
  _run_pipeline (self (final (SampleTest.prepare_notebook quiet_world m)))
  = Some (PBool false).
Proof.
  intros m.
  destruct (notebook_parameters quiet_world m
              {[ "notebook_params" :=
                   PDict {[ "output" := PStr "";
                            "project" := PStr "ml-pipeline-test" ]};
                 "run_pipeline" := PBool false ]}
              {[ "output" := PStr ""; "project" := PStr "ml-pipeline-test" ]}
              (fun _ => eq_refl) eq_refl) as (Hin & _ & Hrun).
  split; [|exact Hrun].
  vm_compute in Hin |- *. exact Hin.
Defined.
(** A per-test configuration that loads, passes the schema, and is not a
    mapping -- an empty file loads as [None] -- stops the notebook steps
    with an [AttributeError] from [raw_args.keys()]: this exception comes
    from the [else] block, so neither [except] clause sees it.  Papermill
    and the conversion are not reached, nothing is printed, and the object
    is as before. *)
Theorem non_mapping_test_config_aborts (w : World) (m : mem) (raw : pyval) :
  let s := self m in
  let config_file := SampleTest.config_file_of w (_test_name s) in
  let o := SampleTest.prepare_notebook w m in
  (forall m', result (SampleTest.read_config w config_file m') = Ok raw) ->
  (forall config, raw <> PDict config) ->
  (exists e, result o = Raise e /\ class_of e = AttributeError) /\
  final o = m /\
  events o = [EOpen config_file; EYamlSafeLoad config_file;
              EMakeData config_file; EValidate (SCHEMA_CONFIG w) config_file].
Proof.
  intros s config_file o Hconfig Hraw. subst s config_file o.
  specialize (Hconfig m). config_answers Hconfig.
  wp_start (SampleTest.prepare_notebook w) m.
  destruct raw; try (exfalso; eapply Hraw; reflexivity);
    wp_go_config; (split; [eexists; split; reflexivity|]);
    split; first [ reflexivity | now destruct m ].
Qed.

(** An empty per-test configuration file. *)
Lemma non_mapping_test_config_aborts_witness :
  final (SampleTest.prepare_notebook (world_with_test_config PNone)
           notebook_test)
  = notebook_test.
Proof.
  destruct (non_mapping_test_config_aborts (world_with_test_config PNone)
              notebook_test PNone) as (_ & Hfinal & _).
  - intros m'. reflexivity.
  - discriminate.
  - exact Hfinal.
Defined.
(** * More ways for [_compile] to stop *)

(** The default configuration loads and passes the schema, but
    [raw_args['run_pipeline']] fails: the mapping has no such key
    ([KeyError]), or what was loaded is no mapping ([TypeError]).  The
    lookup stands in the [else] block of the [try], so its exception is
    not translated: [_compile] raises it as it is, before papermill or any
    subprocess. *)
Theorem default_config_without_run_pipeline (w : World) (m : mem)
    (raw : pyval) (e : exn) :
  let o := SampleTest._compile w m in
  (forall m', result (SampleTest.read_config w (DEFAULT_CONFIG w) m')
              = Ok raw) ->
  getitem raw "run_pipeline" = inl e ->
  aborted o /\
  Forall (fun ev => compilation_attempt ev = false) (events o) /\
  (EValidate (SCHEMA_CONFIG w) (DEFAULT_CONFIG w) ∈ events o ->
   result o = Raise e).
Proof.
  intros o Hconfig Hget. subst o.
  specialize (Hconfig m). config_answers Hconfig.
  wp_start (SampleTest._compile w) m.
  wp_go;
    (split; [eexists; reflexivity|]);
    (split; [repeat constructor|]);
    intros Hin; first [ reflexivity | not_in_log Hin ].
Qed.

(** A default configuration that is the empty mapping. *)
Lemma default_config_without_run_pipeline_witness :
  result (SampleTest._compile (world_with_default_config (PDict ∅))
            (sample_test script_path))
  = Raise (Exn KeyError "run_pipeline" None).
Proof.
  destruct (default_config_without_run_pipeline
              (world_with_default_config (PDict ∅)) (sample_test script_path)
              (PDict ∅) (Exn KeyError "run_pipeline" None)
              (fun _ => eq_refl)) as (_ & _ & H).
  - vm_compute. reflexivity.
  - apply H. vm_compute. in_log.
Defined.
(** The two extensions, as the answers [determine_kind] looks at. *)
Lemma notebook_extension p :
  SampleTest.ext_name_of p = ".ipynb" ->
  String.eqb (SampleTest.ext_name_of p) ".py" = false /\
  String.eqb (SampleTest.ext_name_of p) ".ipynb" = true.
Proof. intros ->. split; reflexivity. Qed.

(** When papermill raises on a notebook, [_compile] raises: what papermill
    raised, if papermill was reached.  No subprocess is started: the
    notebook is neither converted nor compiled, and no temporary file is
    made for it. *)
Theorem papermill_failure_stops_compile (w : World) (m : mem) (e : exn) :
  let test_path := _test_path (self m) in
  let o := SampleTest._compile w m in
  SampleTest.ext_name_of test_path = ".ipynb" ->
  (forall parameters, pm_execute_notebook w test_path parameters = Some e) ->
  aborted o /\
  Forall (fun ev => match ev with
                    | ESubprocessCall _ | ENamedTemporaryFile _ => False
                    | _ => True
                    end) (events o) /\
  _compiled_path (self (final o)) = _compiled_path (self m) /\
  (Exists (fun ev => papermill_call ev = true) (events o) ->
   result o = Raise e).
Proof.
  intros test_path o Hext Hpm. subst test_path o.
  destruct (notebook_extension _ Hext) as [Hpy Hnb].
  wp_start (SampleTest._compile w) m.
  wp_go;
    repeat match goal with
           | E : pm_execute_notebook _ _ _ = None |- _ =>
               rewrite Hpm in E; discriminate E
           | E : pm_execute_notebook _ _ _ = Some _ |- _ =>
               rewrite Hpm in E; injection E as <-
           end.
  all: split; [eexists; reflexivity|].
  all: split; [solve [repeat constructor]|].
  all: split; [reflexivity|].
  all: intros Hex; first [ reflexivity | no_compiler_call Hex ].
Qed.

(** When the conversion cannot be started -- [subprocess.call] itself
    raises, as it does when [jupyter] is not installed -- [_compile]
    raises too, and the compiler is not run.  Only the exit code of a
    conversion that did run is ignored. *)
Theorem conversion_error_stops_compile (w : World) (m : mem) (e : exn) :
  let test_path := _test_path (self m) in
  let o := SampleTest._compile w m in
  SampleTest.ext_name_of test_path = ".ipynb" ->
  subprocess_call w (SampleTest.nbconvert_args test_path) = inl e ->
  aborted o /\
  Forall (fun ev => match ev with
                    | ESubprocessCall args => compiler_command args = false
                    | ENamedTemporaryFile _ => False
                    | _ => True
                    end) (events o) /\
  _compiled_path (self (final o)) = _compiled_path (self m) /\
  (ESubprocessCall (SampleTest.nbconvert_args test_path) ∈ events o ->
   result o = Raise e).
Proof.
  intros test_path o Hext Hcall. subst test_path o.
  destruct (notebook_extension _ Hext) as [Hpy Hnb].
  wp_start (SampleTest._compile w) m.
  wp_go.
  all: split; [eexists; reflexivity|].
  all: split; [solve [repeat constructor]|].
  all: split; [reflexivity|].
  all: intros Hin; first [ reflexivity | not_in_log Hin ].
Qed.

(** A notebook in a world without [jupyter]. *)
Lemma conversion_error_stops_compile_witness :
  let e := Exn FileNotFoundError
             "[Errno 2] No such file or directory: 'jupyter'" None in
  let w := set_subprocess_call
             (fun args =>
                match args with
                | "jupyter" :: _ => inl e
                | _ => inr 0%Z
                end) quiet_world in
  result (SampleTest._compile w (sample_test notebook_path)) = Raise e.
Proof.
  intros e w.
  destruct (conversion_error_stops_compile w (sample_test notebook_path) e
              eq_refl eq_refl) as (_ & _ & _ & H).
  apply H. vm_compute. in_log.
Defined.

(** Papermill rejects the notebook. *)
Lemma papermill_failure_stops_compile_witness :
  let e := Exn ValueError "Notebook does not appear to be JSON" None in
  let w := set_pm_execute_notebook (fun _ _ => Some e) quiet_world in
  result (SampleTest._compile w (sample_test notebook_path)) = Raise e.
Proof.
  intros e w.
  destruct (papermill_failure_stops_compile w (sample_test notebook_path) e
              eq_refl (fun _ => eq_refl)) as (_ & _ & _ & H).
  apply H. vm_compute.
  repeat first [ apply Exists_cons_hd; reflexivity | apply Exists_cons_tl ].
Defined.
(** * More about construction *)

(** The handler of line 75 is [except Exception]: when both loaders fail
    and the second fails with something that is not an [Exception] -- a
    [KeyboardInterrupt], a [SystemExit] -- construction raises that very
    object, not a [RuntimeError], and prints nothing.  (The first loader's
    failure is swallowed whatever it is: line 71 is a bare [except].) *)
Theorem init_lets_non_exceptions_through
    (w : World) (env : gmap string string)
    (test_path results_gcs_dir : string) (function : option string)
    (target_image_prefix namespace : string) (e1 e2 : exn) :
  let o := new_SampleTest w env test_path results_gcs_dir function ""
             target_image_prefix namespace in
  kubernetes_load_incluster_config w = Some e1 ->
  kubernetes_load_kube_config w = Some e2 ->
  isinstance e2 Exception = false ->
  result o = Raise e2 /\
  events o = [ELoadInclusterConfig; ELoadKubeConfig] /\
  _host (self (final o)) = "".
Proof.
  intros o H1 H2 Hcls. subst o. unfold new_SampleTest.
  wp_start (SampleTest.__init__ w test_path results_gcs_dir function ""
              target_image_prefix namespace)
           {| self := blank SampleTestK; environ := env |}.
  wp_go;
    try match goal with
        | H : String.eqb _ _ = false |- _ => vm_compute in H; discriminate H
        end;
    try congruence; repeat split; reflexivity.
Qed.

(** Interrupted while the kube-config is loading. *)
Lemma init_lets_non_exceptions_through_witness :
  let e1 := Exn ConfigException "Service host/port is not set." None in
  let e2 := Exn KeyboardInterrupt "" None in
  let w := set_kubernetes_load_kube_config (Some e2)
             (set_kubernetes_load_incluster_config (Some e1) quiet_world) in
  result (new_SampleTest w ∅ script_path "gs://results" None "" "" "kubeflow")
  = Raise e2.
Proof.
  intros e1 e2 w.
  destruct (init_lets_non_exceptions_through w ∅ script_path "gs://results"
              None "" "kubeflow" e1 e2 eq_refl eq_refl eq_refl) as [H _].
  exact H.
Defined.
(** * The order of the steps *)

(** When [_compile] returns, the calls it made on the test itself are, in
    this order: for a notebook, papermill -- in place (input and output are
    both the test path) and with [prepare_only=True] -- and then the
    conversion; and for both kinds, last, the compiler.  Each is made
    once. *)
Theorem compile_steps_in_order (w : World) (m : mem) :
  let s := self m in
  let test_path := _test_path s in
  let o := SampleTest._compile w m in
  result o = Ok tt ->
  exists parameters compiled_path,
    let compile :=
      ESubprocessCall
        (SampleTest.compile_args test_path compiled_path (_function s)) in
    compilation_attempts (events o)
    = if String.eqb (SampleTest.ext_name_of test_path) ".ipynb"
      then [EExecuteNotebook test_path test_path parameters true;
            ESubprocessCall (SampleTest.nbconvert_args test_path);
            compile]
      else [compile].
Proof.
  intros s test_path o. subst s test_path o.
  wp_start (SampleTest._compile w) m.
  wp_go;
    repeat match goal with
           | |- context [(?a =? ?b)%Z] => destruct (Z.eqb_spec a b)
           end;
    intros Hok; try discriminate Hok.
  all: repeat match goal with
              | E : String.eqb _ _ = _ |- _ => rewrite E
              end.
  all: try (eqb_to_prop;
            match goal with
            | H : SampleTest.ext_name_of _ = ".py" |- _ => rewrite H
            end).
  all: try (exists ∅; eexists; reflexivity).
  all: do 2 eexists; reflexivity.
Qed.

Lemma compile_steps_in_order_witness :
  exists parameters,
    compilation_attempts
      (events (SampleTest._compile quiet_world (sample_test notebook_path)))
    = [EExecuteNotebook notebook_path notebook_path parameters true;
       ESubprocessCall ["jupyter"; "nbconvert"; "--to"; "python";
                        notebook_path];
       ESubprocessCall ["kfp"; "dsl"; "compile"; "--py"; notebook_path;
                        "--output"; "/tmp/tmp8k2x1q.yaml"]].
Proof.
  destruct (compile_steps_in_order quiet_world (sample_test notebook_path)
              eq_refl) as (parameters & compiled_path & H).
  exists parameters. rewrite H.
  assert (Hlast : last (compilation_attempts
                          (events (SampleTest._compile quiet_world
                                     (sample_test notebook_path))))
                  = Some (ESubprocessCall
                            ["kfp"; "dsl"; "compile"; "--py"; notebook_path;
                             "--output"; "/tmp/tmp8k2x1q.yaml"]))
    by (vm_compute; reflexivity).
  rewrite H in Hlast. injection Hlast as Hlast.
  cbv zeta. change (String.eqb _ _) with true. cbv iota.
  now rewrite Hlast.
Defined.
(** * The run phase *)

(** What follows a part of the program that returned. *)
Lemma wp_continue {A B} (o : out A) (k : M B) (Q : out B -> Prop) :
  wp k (final o) (fun o' => Q (after o o')) -> Q (continue o k).
Proof. exact id. Qed.

(** Run the rest of [run_test] after a [_compile] that returned. *)
Ltac after_compile Hok :=
  unfold run_test; rewrite (bind_ok _ _ _ _ Hok);
  match goal with
  | |- context [continue ?o ?k] => pattern (continue o k); apply wp_continue
  end.




(** * Image injection within [run_test] *)

(** What [_compile] logs holds no injection and no call of the run
    phase. *)
Lemma compile_log_before_run (w : World) (m : mem) :
  Forall (fun ev => injection_call ev = false)
    (events (SampleTest._compile w m)) /\
  Forall (fun ev => run_phase ev = false) (events (SampleTest._compile w m)).
Proof.
  split; (eapply Forall_impl; [apply compile_emits_before_run|]);
    intros ev [Hrun Hinj]; assumption.
Qed.

Lemma compile_keeps_cls (w : World) (m : mem) :
  cls (self (final (SampleTest._compile w m))) = cls (self m).
Proof. apply compile_assigns_only; reflexivity. Qed.

(** [run_test] of a plain [SampleTest] never calls
    [utils.file_injection], however the run goes. *)
Theorem sample_test_never_injects (w : World) (m : mem) :
  cls (self m) = SampleTestK ->
  Forall (fun ev => injection_call ev = false) (events (run_test w m)).
Proof.
  intros Hcls.
  destruct (compile_log_before_run w m) as [Hlog _].
  pose proof (compile_keeps_cls w m) as Kcls. rewrite Hcls in Kcls.
  destruct (result (SampleTest._compile w m)) as [[]|e] eqn:Hc.
  - after_compile Hc.
    wp_go; (apply Forall_app; split; [exact Hlog|repeat constructor]).
  - unfold run_test. rewrite (bind_raise _ _ _ _ Hc). exact Hlog.
Qed.

Lemma sample_test_never_injects_witness :
  Forall (fun ev => injection_call ev = false)
    (events (run_test quiet_world (sample_test notebook_path))).
Proof.
  apply (sample_test_never_injects quiet_world (sample_test notebook_path)).
  reflexivity.
Defined.

(** In [run_test] of a [ComponentTest], an injection that raises ends the
    test: the exception of [utils.file_injection] is what [run_test]
    raises once the injection was reached, no checker is constructed, the
    directory is not changed, and the experiment name is not set. *)
Theorem injection_failure_stops_run (w : World) (m : mem) (e : exn) :
  let o := run_test w m in
  cls (self m) = ComponentTestK ->
  (forall file_in file_out subs,
     utils_file_injection w file_in file_out subs = Some e) ->
  aborted o /\
  Forall (fun ev => run_phase ev = false) (events o) /\
  environ (final o) = environ m /\
  (Exists (fun ev => injection_call ev = true) (events o) ->
   result o = Raise e).
Proof.
  intros o Hcls Hinj. subst o.
  destruct (compile_log_before_run w m) as [Hlog Hrun].
  pose proof (compile_keeps_cls w m) as Kcls. rewrite Hcls in Kcls.
  rewrite <- (compile_keeps_environ w m).
  destruct (result (SampleTest._compile w m)) as [[]|e'] eqn:Hc.
  - after_compile Hc.
    wp_go;
      repeat match goal with
             | E : utils_file_injection _ _ _ _ = None |- _ =>
                 rewrite Hinj in E; discriminate E
             | E : utils_file_injection _ _ _ _ = Some _ |- _ =>
                 rewrite Hinj in E; injection E as <-
             end.
    all: split; [eexists; reflexivity|].
    all: split; [apply Forall_app; split; [exact Hrun|repeat constructor]|].
    all: split; reflexivity.
  - unfold run_test. rewrite (bind_raise _ _ _ _ Hc). cbn.
    split; [eexists; reflexivity|]. split; [exact Hrun|].
    split; [reflexivity|]. intros Hex. exfalso.
    apply Exists_exists in Hex as (ev & Hin & Hev).
    rewrite Forall_forall in Hlog. rewrite (Hlog ev Hin) in Hev.
    discriminate Hev.
Qed.

(** The compiled pipeline is not where the injection looks for it. *)
Lemma injection_failure_stops_run_witness :
  let o := run_test world_without_injection_input
             (component_test script_path) in
  result o = Raise missing_config /\ environ (final o) = ∅.
Proof.
  destruct (injection_failure_stops_run world_without_injection_input
              (component_test script_path) missing_config eq_refl
              (fun _ _ _ => eq_refl)) as (_ & _ & Henv & Hres).
  cbv zeta. split; [|exact Henv].
  apply Hres. vm_compute.
  repeat first [ apply Exists_cons_hd; reflexivity | apply Exists_cons_tl ].
Defined.
(** [ComponentTest._injection] changes nothing in the object and adds
    nothing to the exceptions of [utils.file_injection]: it returns when
    the injection returns and raises what the injection raises.  Every
    call it makes names the same two files and the same mappings -- the
    three mappings for [xgboost_training_cm], the two base mappings for
    any other test -- and it makes one call or two. *)
Theorem component_injection_outcome (w : World) (m : mem) :
  let s := self m in
  let file_in := ComponentTest.injection_input (_test_name s) in
  let file_out := ComponentTest.injection_output (_test_name s) in
  let subs :=
    if bool_decide (_test_name s = Some "xgboost_training_cm")
    then ComponentTest.xgboost_subs s else ComponentTest.base_subs s in
  let o := ComponentTest._injection w m in
  final o = m /\
  result o
  = match utils_file_injection w file_in file_out subs with
    | Some e => Raise e
    | None => Ok tt
    end /\
  (events o = [EFileInjection file_in file_out subs] \/
   events o = [EFileInjection file_in file_out subs;
               EFileInjection file_in file_out subs]).
Proof.
  intros s file_in file_out subs o. subst s file_in file_out subs o.
  wp_start (ComponentTest._injection w) m.
  wp_go;
    repeat match goal with
           | |- context [utils_file_injection ?w ?a ?b ?c] =>
               destruct (utils_file_injection w a b c) eqn:?
           end;
    try congruence;
    (split; [now destruct m|]); (split; [reflexivity|]); auto.
Qed.
(** * The test name and the extension *)

Module os_path_facts.

Import os_path.

Lemma take_drop_str n s : take_str n s ++ drop_str n s = s.
Proof.
  revert n. induction s as [|c s IH]; intros [|n]; cbn; try reflexivity.
  change (String c (take_str n s ++ drop_str n s) = String c s).
  now rewrite IH.
Qed.

Lemma take_str_app pre c post :
  take_str (S (String.length pre)) (pre ++ String c post)
  = pre ++ String c "".
Proof.
  induction pre as [|a pre IH]; [reflexivity|].
  change (String a (take_str (S (String.length pre)) (pre ++ String c post))
          = String a (pre ++ String c "")).
  now rewrite IH.
Qed.

Lemma drop_str_app pre s :
  drop_str (String.length pre) (pre ++ s) = s.
Proof.
  induction pre as [|a pre IH]; [now destruct s|]. exact IH.
Qed.

Lemma drop_str_after pre c post :
  drop_str (S (String.length pre)) (pre ++ String c post) = post.
Proof. induction pre as [|a pre IH]; [now destruct post|exact IH]. Qed.

Lemma take_str_length pre s :
  take_str (String.length pre) (pre ++ s) = pre.
Proof.
  induction pre as [|a pre IH]; [now destruct s|].
  change (String a (take_str (String.length pre) (pre ++ s)) = String a pre).
  now rewrite IH.
Qed.

(** [rfind]: either the character does not occur, or the index is that of
    an occurrence with none after it. *)
Lemma rfind_from_spec c s : forall i found,
  (rfind_from c s i found = found /\ ~ contains c s) \/
  (exists pre post,
     s = pre ++ String c post /\
     rfind_from c s i found = (i + Z.of_nat (String.length pre))%Z /\
     ~ contains c post).
Proof.
  unfold contains.
  induction s as [|a s IH]; intros i found; cbn [rfind_from].
  - left. split; [reflexivity|]. cbn. apply not_elem_of_nil.
  - destruct (IH (i + 1)%Z (if Ascii.eqb a c then i else found))
      as [[Hr Hno]|(pre & post & -> & Hr & Hno)].
    + destruct (Ascii.eqb_spec a c) as [->|Hne].
      * right. exists "", s. split; [reflexivity|]. split; [|exact Hno].
        rewrite Hr. cbn. lia.
      * left. split; [exact Hr|]. cbn. rewrite elem_of_cons.
        intros [E|E]; [congruence|contradiction].
    + right. exists (String a pre), post. split; [reflexivity|].
      split; [|exact Hno]. rewrite Hr. cbn [String.length]. lia.
Qed.

Lemma rfind_spec c s :
  (rfind c s = (-1)%Z /\ ~ contains c s) \/
  (exists pre post,
     s = pre ++ String c post /\
     rfind c s = Z.of_nat (String.length pre) /\
     ~ contains c post).
Proof.
  unfold rfind.
  destruct (rfind_from_spec c s 0 (-1)) as [H|(pre & post & E & Hr & Hno)];
    [now left|right].
  exists pre, post. now rewrite Hr.
Qed.

Lemma contains_app c s1 s2 :
  contains c (s1 ++ s2) <-> contains c s1 \/ contains c s2.
Proof. unfold contains. rewrite regex_facts.lit_app. apply elem_of_app. Qed.

(** The tail of [split] holds no slash, and the path is what precedes the
    tail followed by the tail. *)
Lemma split_tail p :
  exists dir,
    p = dir ++ snd (split p) /\
    (dir = "" \/ exists d, dir = d ++ "/") /\
    ~ contains "/" (snd (split p)).
Proof.
  unfold split. cbn [snd].
  destruct (rfind_spec "/" p) as [[Hr Hno]|(pre & post & E & Hr & Hno)];
    rewrite Hr.
  - exists "". split; [reflexivity|]. split; [now left|exact Hno].
  - replace (Z.to_nat (Z.of_nat (String.length pre) + 1))
      with (S (String.length pre)) by lia.
    exists (take_str (S (String.length pre)) p).
    split; [now rewrite take_drop_str|].
    subst p. rewrite take_str_app. split; [right; now exists pre|].
    now rewrite drop_str_after.
Qed.

(** The loop returns only after it has seen a character before the dot,
    and what it returns is the path cut at the dot. *)
Lemma skip_leading_dots_spec fuel p : forall filenameIndex dotIndex r,
  skip_leading_dots fuel p filenameIndex dotIndex = Some r ->
  (filenameIndex < dotIndex)%Z /\
  r = (take_str (Z.to_nat dotIndex) p, drop_str (Z.to_nat dotIndex) p).
Proof.
  induction fuel as [|fuel IH]; intros fi di r; cbn [skip_leading_dots];
    [discriminate|].
  destruct (Z.ltb_spec fi di) as [Hlt|]; [|discriminate].
  destruct (negb _).
  - intros [= <-]. now split.
  - intros H. apply IH in H as [H ->]. split; [lia|reflexivity].
Qed.

(** [splitext] cuts its argument in two; the second part is empty, or it
    is a dot followed by no other dot and the first part is not empty. *)
Lemma splitext_spec p :
  ~ contains "/" p ->
  fst (splitext p) ++ snd (splitext p) = p /\
  (snd (splitext p) = "" \/
   exists rest,
     snd (splitext p) = String "." rest /\ ~ contains "." rest /\
     fst (splitext p) <> "").
Proof.
  intros Hsep. unfold splitext.
  destruct (rfind_spec "/" p) as [[Hs _]|(pre & post & E & _ & _)].
  2: { exfalso. apply Hsep. rewrite E. apply contains_app. right.
       unfold contains. cbn. apply list_elem_of_here. }
  rewrite Hs.
  assert (Hnone : fst (p, "") ++ snd (p, "") = p /\
                  (snd (p, "") = "" \/
                   exists rest,
                     snd (p, "") = String "." rest /\ ~ contains "." rest /\
                     fst (p, "") <> "")).
  { cbn. split; [|now left]. clear. induction p as [|a p IH]; [reflexivity|].
    change (String a (p ++ "") = String a p). now rewrite IH. }
  destruct (Z.ltb_spec (-1) (rfind "." p)); [|exact Hnone].
  destruct (skip_leading_dots _ _ _ _) as [r|] eqn:Hskip; [|exact Hnone].
  apply skip_leading_dots_spec in Hskip as [Hlt ->]. cbn [fst snd].
  split; [apply take_drop_str|]. right.
  destruct (rfind_spec "." p) as [[Hd _]|(pre & post & E & Hd & Hno)];
    [lia|].
  rewrite Hd, Nat2Z.id. exists post.
  subst p. rewrite drop_str_app, take_str_length.
  split; [reflexivity|]. split; [exact Hno|].
  destruct pre; [cbn in Hd; lia|discriminate].
Qed.

End os_path_facts.

(** The two parts of the file name, for the lemmas below. *)
Lemma test_path_parts_aux (test_path : string) :
  let test_name := SampleTest.test_name_of test_path in
  let ext_name := SampleTest.ext_name_of test_path in
  ~ contains "/" test_name /\
  ~ contains "/" ext_name /\
  (exists dir,
     test_path = dir ++ test_name ++ ext_name /\
     (dir = "" \/ exists d, dir = d ++ "/")) /\
  (ext_name = "" \/
   exists rest,
     ext_name = String "." rest /\ ~ contains "." rest /\ test_name <> "").
Proof.
  intros test_name ext_name. subst test_name ext_name.
  unfold SampleTest.test_name_of, SampleTest.ext_name_of.
  destruct (os_path_facts.split_tail test_path) as (dir & E & Hdir & Hno).
  destruct (os_path_facts.splitext_spec _ Hno) as [Happ Hext].
  rewrite <- Happ in Hno.
  split; [|split; [|split; [exists dir; now rewrite Happ|exact Hext]]];
    intros H; apply Hno; apply os_path_facts.contains_app; auto.
Qed.

(** Lines 92-94 cut the test path in three: what precedes the file name
    (empty, or ending in a slash), the test name, and the extension; put
    together again they are the test path.  Neither the test name nor the
    extension holds a slash.  The extension is empty, or it is the last dot
    of the file name and what follows it -- and then the test name is not
    empty: a file called [.py] has no extension, and no accepted test has
    an empty name. *)
Theorem test_path_parts (test_path : string) :
  let test_name := SampleTest.test_name_of test_path in
  let ext_name := SampleTest.ext_name_of test_path in
  (exists dir,
     test_path = dir ++ test_name ++ ext_name /\
     (dir = "" \/ exists d, dir = d ++ "/")) /\
  ~ contains "/" test_name /\ ~ contains "/" ext_name /\
  (ext_name = "" \/
   exists rest,
     ext_name = String "." rest /\ ~ contains "." rest /\ test_name <> "").
Proof.
  destruct (test_path_parts_aux test_path) as (H1 & H2 & H3 & H4).
  cbv zeta. auto.
Qed.
(** * The per-test configuration file *)

(** * The sample pipelines as steps of a larger one *)

(** Wherever the two pipeline functions are used, they only add tasks:
    [inner_pipeline] adds its one task, with caching off, and returns that
    task's output; [outer_pipeline] adds the task of the inner pipeline and
    the [outer_comp] task, which reads the output of the former and has
    caching off.  The tasks that were there before are as they were: each
    [set_caching_options] reaches the task it is called on and no other. *)
Theorem sample_pipelines_add_tasks (ts : list subdag.PipelineTask) :
  subdag.inner_pipeline ts
  = (subdag.OutputOf (length ts),
     (ts ++ [{| subdag.component := "inner_comp"; subdag.arguments := [];
                subdag.enable_caching := false |}])%list) /\
  subdag.outer_pipeline ts
  = (tt,
     (ts ++ [{| subdag.component := "inner_pipeline";
                subdag.arguments := []; subdag.enable_caching := true |};
             {| subdag.component := "outer_comp";
                subdag.arguments := [("input", subdag.OutputOf (length ts))];
                subdag.enable_caching := false |}])%list).
Proof.
  unfold subdag.inner_pipeline, subdag.outer_pipeline,
    subdag.inner_pipeline_as_task, subdag.inner_comp, subdag.outer_comp,
    subdag.then_, subdag.add_task, subdag.set_caching_options, subdag.pure,
    subdag.output.
  split; f_equal.
  - rewrite <- (Nat.add_0_r (length ts)) at 1.
    now rewrite alter_app_r.
  - rewrite <- app_assoc. rewrite length_app. cbn [length app].
    rewrite (alter_app_r _ ts _ 1). reflexivity.
Qed.

(** * The three patterns *)

(** The two spellings of the tag, [(\w+|[.-])+] on lines 247 and 249 and
    [(\w|[.-])+] on line 254, match the same strings. *)
Theorem tag_spellings_agree (is_word : ascii -> bool) (t : Regex.text) :
  Regex.matches is_word ComponentTest.tag_words t
  <-> Regex.matches is_word ComponentTest.tag_chars t.
Proof.
  rewrite regex_facts.tag_words_language, regex_facts.tag_chars_language.
  reflexivity.
Qed.

(** No string is matched by two of the three patterns: a reference is to
    one image. *)
Theorem injection_patterns_disjoint (is_word : ascii -> bool)
    (m : Regex.text) :
  let hit r := Regex.matches is_word r m in
  ~ (hit ComponentTest.confusion_matrix_pattern /\
     hit ComponentTest.roc_pattern) /\
  ~ (hit ComponentTest.confusion_matrix_pattern /\
     hit ComponentTest.gcp_pattern) /\
  ~ (hit ComponentTest.roc_pattern /\ hit ComponentTest.gcp_pattern).
Proof.
  intros hit. subst hit.
  destruct (injection_pattern_languages is_word m) as (Hcm & Hroc & Hgcp).
  rewrite Hcm, Hroc, Hgcp. unfold image_reference.
  repeat split; intros [(t1 & -> & _) (t2 & E & _)]; cbn in E;
    discriminate E.
Qed.
(** * Greedy matching of a tag *)

Module greedy_facts.

Import Regex.

#[local] Open Scope list_scope.

Section Greedy.

Variable is_word : ascii -> bool.

(** The text after the tag, and the answer of the continuation there. *)
Variables (rest x : text).
Hypothesis Hrest : ends_tag is_word rest.

#[local] Abbreviation tag_ok := (fun a => tag_char is_word a = true).
#[local] Abbreviation bt := (bt is_word).
#[local] Abbreviation plus_loop := (plus_loop is_word).
#[local] Abbreviation good := (good is_word rest x).
#[local] Abbreviation steps_through := (steps_through is_word rest x).

Lemma good_le K b1 b2 : b2 <= b1 -> good K b1 -> good K b2.
Proof. intros Hle H t Ht Hlen. apply H; [exact Ht|lia]. Qed.

Lemma rest_not_tag :
  match rest with
  | [] => True
  | b :: _ => is_word b = false /\ existsb (Ascii.eqb b) (lit ".-") = false
  end.
Proof using Hrest.
  unfold ends_tag, tag_char in Hrest. destruct rest; [exact I|].
  now apply orb_false_iff in Hrest.
Qed.

(** At the end of the tag neither [\w] nor [[.-]] matches. *)
Lemma word_stops K : bt WordChar rest K = None.
Proof using Hrest.
  pose proof rest_not_tag as H. cbn. destruct rest; [reflexivity|].
  now destruct H as [-> _].
Qed.

Lemma punct_stops K : bt (CharSet (lit ".-")) rest K = None.
Proof using Hrest.
  pose proof rest_not_tag as H. cbn [Regex.bt]. destruct rest; [reflexivity|].
  now destruct H as [_ ->].
Qed.

Lemma word_run_stops K n : plus_loop WordChar K n rest = None.
Proof using Hrest.
  destruct n; [rewrite regex_facts.plus_loop_O; apply word_stops|].
  rewrite regex_facts.plus_loop_S. apply word_stops.
Qed.

(** [\w+] inside the tag: whatever it answers is [x], and it does answer
    when the text starts with a word character. *)
Lemma word_run K n : forall t,
  Forall tag_ok t -> good K (length (t ++ rest)) ->
  (plus_loop WordChar K n (t ++ rest) = None \/
   plus_loop WordChar K n (t ++ rest) = Some x) /\
  (forall a t', t = a :: t' -> is_word a = true ->
                plus_loop WordChar K n (t ++ rest) = Some x).
Proof using Hrest.
  induction n as [|n IH]; intros t Ht HK.
  - rewrite regex_facts.plus_loop_O.
    destruct t as [|a t']; cbn.
    + split; [left; apply word_stops|discriminate].
    + apply Forall_cons in Ht as [_ Ht'].
      assert (HKt : K (t' ++ rest) = Some x) by (apply HK; [exact Ht'|cbn; lia]).
      rewrite HKt. split; [destruct (is_word a); auto|].
      now intros ? ? [= <- <-] ->.
  - rewrite regex_facts.plus_loop_S.
    destruct t as [|a t']; cbn [app].
    + split; [left; apply word_stops|discriminate].
    + apply Forall_cons in Ht as [_ Ht'].
      assert (HKt : K (t' ++ rest) = Some x) by (apply HK; [exact Ht'|cbn; lia]).
      assert (Hnext : (if (length (t' ++ rest) <? length (a :: t' ++ rest))%nat
                       then match plus_loop WordChar K n (t' ++ rest) with
                            | Some y => Some y
                            | None => K (t' ++ rest)
                            end
                       else K (t' ++ rest)) = Some x).
      { destruct (_ <? _)%nat; [|exact HKt].
        destruct (IH t' Ht') as [[E|E] _];
          [eapply good_le; [|exact HK]; cbn; lia|now rewrite E..]. }
      cbn [Regex.bt]. rewrite Hnext.
      split; [destruct (is_word a); auto|].
      now intros ? ? [= <- <-] ->.
Qed.

(** The greedy loop over such an iteration runs to the end of the tag. *)
Lemma tag_loop r k :
  steps_through r -> k rest = Some x ->
  forall n t,
    Forall tag_ok t -> length (t ++ rest) <= n ->
    plus_loop r k n (t ++ rest)
    = match t with [] => None | _ => Some x end.
Proof.
  intros [Hstep Hstop] Hk. induction n as [|n IH]; intros t Ht Hlen.
  - destruct t; [|cbn in Hlen; lia].
    rewrite regex_facts.plus_loop_O. apply Hstop.
  - rewrite regex_facts.plus_loop_S. destruct t as [|a t']; [apply Hstop|].
    apply Forall_cons in Ht as [Ha Ht']. apply Hstep; [exact Ha|exact Ht'|].
    intros t Ht Hlt. cbn [app] in *.
    destruct (Nat.ltb_spec (length (t ++ rest))
                (length (a :: t' ++ rest))) as [_|Hge]; [|cbn [length] in *; lia].
    rewrite IH; [|exact Ht|cbn [length] in *; lia].
    now destruct t.
Qed.

Lemma tag_chars_steps :
  steps_through (Group (Alt WordChar (CharSet (lit ".-")))).
Proof using Hrest.
  split.
  - intros K a t Ha Ht HK. cbn [Regex.bt].
    assert (HKt : K (t ++ rest) = Some x) by (apply HK; [exact Ht|cbn; lia]).
    rewrite HKt. unfold tag_char in Ha.
    destruct (is_word a); [reflexivity|]. cbn [orb] in Ha. now rewrite Ha.
  - intros K.
    change (match bt WordChar rest K with
            | Some y => Some y
            | None => bt (CharSet (lit ".-")) rest K
            end = None).
    now rewrite word_stops, punct_stops.
Qed.

Lemma tag_words_steps :
  steps_through (Group (Alt (Plus WordChar) (CharSet (lit ".-")))).
Proof using Hrest.
  split.
  - intros K a t Ha Ht HK.
    change (match plus_loop WordChar K (length (a :: t ++ rest))
                    ((a :: t) ++ rest) with
            | Some y => Some y
            | None => bt (CharSet (lit ".-")) (a :: t ++ rest) K
            end = Some x).
    destruct (word_run K (length (a :: t ++ rest)) (a :: t))
      as [Hany Hword]; [now constructor|exact HK|].
    destruct (is_word a) eqn:Ew.
    + now rewrite (Hword a t eq_refl Ew).
    + destruct Hany as [E|E]; rewrite E; [|reflexivity].
      cbn [Regex.bt]. unfold tag_char in Ha. rewrite Ew in Ha.
      cbn [orb] in Ha. rewrite Ha. apply HK; [exact Ht|cbn; lia].
  - intros K.
    change (match plus_loop WordChar K (length rest) rest with
            | Some y => Some y
            | None => bt (CharSet (lit ".-")) rest K
            end = None).
    now rewrite word_run_stops, punct_stops.
Qed.

End Greedy.

(** The literal prefix of a pattern is consumed character by character. *)
Lemma bt_lit_then is_word s r t k :
  bt is_word (lit_then s r) (lit s ++ t) k = bt is_word r t k.
Proof.
  unfold lit_then. induction (lit s) as [|c l IH]; [reflexivity|].
  cbn [fold_right app bt]. now rewrite Ascii.eqb_refl.
Qed.

(** A match attempt at the start of a reference takes the name, the colon
    and the whole tag. *)
Lemma match_here_reference is_word rest name r tag :
  ends_tag is_word rest ->
  steps_through is_word rest rest r ->
  tag <> [] -> Forall (fun a => tag_char is_word a = true) tag ->
  match_here is_word false (lit_then (name ++ ":")%string (Plus r))
    (lit name ++ lit ":" ++ tag ++ rest)
  = Some (lit name ++ lit ":" ++ tag, rest).
Proof.
  intros Hrest Hr Hne Htag. unfold match_here.
  rewrite (app_assoc (lit name)), <- regex_facts.lit_app, bt_lit_then.
  rewrite regex_facts.bt_plus.
  rewrite (tag_loop is_word rest rest r _ Hr);
    [|reflexivity|exact Htag|lia].
  destruct tag as [|a tag]; [congruence|]. f_equal. f_equal.
  rewrite regex_facts.lit_app, (app_assoc _ (a :: tag) rest).
  rewrite length_app, Nat.add_sub, take_app_length.
  now rewrite <- app_assoc.
Qed.

End greedy_facts.

(** A reference to one of the three images, followed by text that cannot
    continue its tag, is matched whole by the pattern for that image: the
    name, the colon, and the tag up to its last character -- dots and
    hyphens included, as in [1.0.0-rc.3] -- with either spelling of the
    tag pattern. *)
Theorem references_are_matched_whole (is_word : ascii -> bool)
    (tag rest : Regex.text) :
  let whole pattern name :=
    Regex.match_here is_word false pattern
      (Regex.lit name ++ Regex.lit ":" ++ tag ++ rest)%list
    = Some ((Regex.lit name ++ Regex.lit ":" ++ tag)%list, rest) in
  tag <> [] ->
  Forall (fun a => tag_char is_word a = true) tag ->
  ends_tag is_word rest ->
  whole ComponentTest.confusion_matrix_pattern
    ComponentTest.confusion_matrix_image /\
  whole ComponentTest.roc_pattern ComponentTest.roc_image /\
  whole ComponentTest.gcp_pattern ComponentTest.gcp_image.
Proof.
  intros whole Hne Htag Hrest. subst whole.
  repeat split;
    first [ now apply greedy_facts.match_here_reference;
              [|apply greedy_facts.tag_words_steps|..]
          | now apply greedy_facts.match_here_reference;
              [|apply greedy_facts.tag_chars_steps|..] ].
Qed.

(** A release-candidate tag, followed by the end of a line. *)
Lemma references_are_matched_whole_witness :
  Regex.match_here Regex.ascii_word false ComponentTest.gcp_pattern
    (Regex.lit "gcr.io/ml-pipeline/ml-pipeline-gcp:1.0.0-rc.3 # dataproc")
  = Some (Regex.lit "gcr.io/ml-pipeline/ml-pipeline-gcp:1.0.0-rc.3",
          Regex.lit " # dataproc").
Proof.
  destruct (references_are_matched_whole Regex.ascii_word
              (Regex.lit "1.0.0-rc.3") (Regex.lit " # dataproc"))
    as (_ & _ & H).
  - discriminate.
  - repeat constructor.
  - reflexivity.
  - exact H.
Defined.
(** * The first and the last steps of [_compile] *)

(** A test path that is not a file: the assertion of line 89 names the
    path, and nothing was called. *)
Lemma compile_refuses_non_file_witness :
  let w := set_os_path_isfile (fun _ => false) quiet_world in
  SampleTest._compile w (sample_test "samples/core/missing.py")
  = {| result :=
         Raise (Exn AssertionError
                  "Specified test path is not a valid file: samples/core/missing.py"
                  None);
       final := sample_test "samples/core/missing.py"; events := [] |}.
Proof.
  intros w.
  exact (compile_refuses_non_file w (sample_test "samples/core/missing.py")
           eq_refl).
Defined.

(** The schema is loaded outside the [try]: when [yamale.make_schema]
    raises, [_compile] raises that exception as it is -- an [OSError] for a
    missing schema file is not turned into the [FileExistsError] of a
    missing default configuration -- and no configuration is opened. *)
Theorem schema_failure_is_raised_as_is (w : World) (m : mem) (e : exn) :
  let o := SampleTest._compile w m in
  yamale_make_schema w (SCHEMA_CONFIG w) = Some e ->
  aborted o /\
  (events o = [] \/
   events o = [EMakeSchema (SCHEMA_CONFIG w)] /\ result o = Raise e).
Proof.
  intros o Hschema. subst o.
  wp_start (SampleTest._compile w) m.
  wp_go; (split; [eexists; reflexivity|]); auto.
Qed.

(** The schema file is missing. *)
Lemma schema_failure_is_raised_as_is_witness :
  let w := set_yamale_make_schema (fun _ => Some missing_config)
             quiet_world in
  result (SampleTest._compile w (sample_test script_path))
  = Raise missing_config.
Proof.
  intros w.
  destruct (schema_failure_is_raised_as_is w (sample_test script_path)
              missing_config eq_refl) as (_ & [H|[_ H]]).
  - discriminate H.
  - exact H.
Defined.

(** The temporary file is made with [delete=False] and its name is stored
    before the compiler runs: once [_compile] has made it, the object holds
    its name whether the compiler then succeeds, fails or cannot be
    started; and [_compile] makes no second one.  Until then
    [_compiled_path] is what it was. *)
Theorem temporary_file_is_remembered (w : World) (m : mem) :
  let o := SampleTest._compile w m in
  let made := List.filter
                (fun ev => match ev with
                           | ENamedTemporaryFile _ => true
                           | _ => false
                           end) (events o) in
  match tempfile_NamedTemporaryFile w ".yaml" with
  | inr path =>
      made = [] /\ _compiled_path (self (final o)) = _compiled_path (self m) \/
      made = [ENamedTemporaryFile ".yaml"] /\
      _compiled_path (self (final o)) = Some path
  | inl _ =>
      length made <= 1 /\
      _compiled_path (self (final o)) = _compiled_path (self m)
  end.
Proof.
  intros o made. subst o made.
  wp_start (SampleTest._compile w) m.
  wp_go; cbn; first [ left; split; reflexivity
                    | right; split; reflexivity
                    | split; [lia|reflexivity] ].
Qed.
